(** * Metadata exchange and multi-tenant service-provider registry

    A shallow embedding of [samlsp/fetch_metadata.go] (the metadata parser
    and fetcher) and of the [ServiceMultipleProvider] registry of package
    [saml] (lookup, discovery redirect, metadata composition), with the
    properties the specification states about them.

    Conventions.
    - A Go [error] is modelled by its [Error()] text; [nil] is [None].
    - A Go [string] is a [string] (a sequence of 8-bit characters), a
      [[]byte] that is only read is a [list byte], an [int], [int64] or
      [time.Duration] is a [Z] within its range.
    - A [[]byte] that [append] extends, the [Raw] of a certificate, is a
      slice header on a store of backing arrays, and the code that
      appends to it passes the store along.
    - A function returning a pointer to [T] and an [error] returns
      [result T]: [Ok v] for a pointer to [v] with a nil error, [Err e]
      for a nil pointer with error [e].
    - A nil-able pointer field is an [option]. *)

From Stdlib Require Import ZArith List String Ascii Lia.
From Stdlib Require Import DecimalString DecimalPos DecimalZ.
From Stdlib.Strings Require Import Byte.
From stdpp Require Import base option gmap strings list sorting.

Local Open Scope string_scope.
Local Open Scope Z_scope.

(** ** Errors and results *)

Definition error : Type := string.

Inductive result (A : Type) : Type :=
| Ok (a : A)
| Err (e : error).
Arguments Ok {A} a.
Arguments Err {A} e.

(** A call either returns or panics (a run-time error such as a nil
    pointer dereference). *)
Inductive run (A : Type) : Type :=
| Returns (a : A)
| Panics (msg : string).
Arguments Returns {A} a.
Arguments Panics {A} msg.

Definition nil_dereference : string :=
  "runtime error: invalid memory address or nil pointer dereference".

(** ** Declarations of package [saml] that live outside these files

    The two source files use types, constants and helpers that package
    [saml] declares elsewhere. They are taken as parameters. *)
Class SamlDecls : Type := {
  (** [time.Time], its zero value and [Time.Add]. *)
  Time : Type;
  Time_zero : Time;
  Time_Add : Time -> Z -> Time;
  (** [saml.IDPSSODescriptor]; the parser only counts them. *)
  IDPSSODescriptor : Type;
  (** [saml.ServiceProvider] and its zero value [ServiceProvider{}]. *)
  ServiceProvider : Type;
  ServiceProvider_zero : ServiceProvider;
  (** [saml.RequestedAuthnContext]. *)
  RequestedAuthnContext : Type;
  (** [saml.DefaultValidDuration], in nanoseconds. *)
  DefaultValidDuration : Z;
  (** [saml.HTTPPostBinding] and [saml.HTTPArtifactBinding]. *)
  HTTPPostBinding : string;
  HTTPArtifactBinding : string;
}.

(** ** Metadata documents (package [saml], [metadata.go])

    The structures are declared in another file of package [saml]. The
    fields kept are those that the two files read or write; [Metadata]
    leaves every other field at its zero value. *)

Record Endpoint : Type := {
  Endpoint_Binding : string;
  Endpoint_Location : string;
  Endpoint_ResponseLocation : string;
}.

Record IndexedEndpoint : Type := {
  IndexedEndpoint_Binding : string;
  IndexedEndpoint_Location : string;
  IndexedEndpoint_Index : Z;
}.

Record X509Certificate : Type := { X509Certificate_Data : string }.
Record X509Data : Type := { X509Certificates : list X509Certificate }.
Record KeyInfo : Type := { KeyInfo_X509Data : X509Data }.
Record EncryptionMethod : Type := { Algorithm : string }.

Record KeyDescriptor : Type := {
  Use : string;
  KeyDescriptor_KeyInfo : KeyInfo;
  EncryptionMethods : list EncryptionMethod;
}.

Record RoleDescriptor `{SamlDecls} : Type := {
  ProtocolSupportEnumeration : string;
  KeyDescriptors : list KeyDescriptor;
  RoleDescriptor_ValidUntil : option Time;
}.

Record SSODescriptor `{SamlDecls} : Type := {
  SSODescriptor_RoleDescriptor : RoleDescriptor;
  SingleLogoutServices : list Endpoint;
  NameIDFormats : list string;
}.

Record SPSSODescriptor `{SamlDecls} : Type := {
  SPSSODescriptor_SSODescriptor : SSODescriptor;
  AuthnRequestsSigned : option bool;
  WantAssertionsSigned : option bool;
  AssertionConsumerServices : list IndexedEndpoint;
}.

Record EntityDescriptor `{SamlDecls} : Type := {
  EntityID : string;
  ValidUntil : Time;
  IDPSSODescriptors : list IDPSSODescriptor;
  SPSSODescriptors : list SPSSODescriptor;
}.

Record EntitiesDescriptor `{SamlDecls} : Type := {
  Name : option string;
  EntityDescriptors : list EntityDescriptor;
}.

(** [saml.EntityDescriptor{}] and [saml.EntitiesDescriptor{}]. *)
Definition EntityDescriptor_zero `{SamlDecls} : EntityDescriptor :=
  {| EntityID := ""; ValidUntil := Time_zero;
     IDPSSODescriptors := []; SPSSODescriptors := [] |}.

Definition EntitiesDescriptor_zero `{SamlDecls} : EntitiesDescriptor :=
  {| Name := None; EntityDescriptors := [] |}.

(** [entities.EntityDescriptors = v] *)
Definition set_EntityDescriptors `{SamlDecls}
    (v : list EntityDescriptor) (entities : EntitiesDescriptor) : EntitiesDescriptor :=
  {| Name := Name entities; EntityDescriptors := v |}.

(** ** The XML libraries

    [xrv.Validate] (xml-roundtrip-validator) and [encoding/xml]'s
    [Unmarshal] at the two target types. [Unmarshal] writes into the value
    its second argument points to and returns an error: it is a function
    from the bytes and the target before the call to the target after the
    call and the error. *)
Class XmlLib `{SamlDecls} : Type := {
  xrv_Validate : list byte -> option error;
  xml_Unmarshal_EntityDescriptor :
    list byte -> EntityDescriptor -> EntityDescriptor * option error;
  xml_Unmarshal_EntitiesDescriptor :
    list byte -> EntitiesDescriptor -> EntitiesDescriptor * option error;
}.

(** ** [samlsp/fetch_metadata.go]: the parser *)

Definition expected_EntityDescriptor : error :=
  "expected element type <EntityDescriptor> but have <EntitiesDescriptor>".

Definition expected_EntitiesDescriptor : error :=
  "expected element type <EntitiesDescriptor> but have <EntityDescriptor>".

Definition no_entity_found : error := "no entity found with IDPSSODescriptor".

(** [err != nil && err.Error() == msg] *)
Definition error_is (err : option error) (msg : string) : bool :=
  match err with
  | Some e => String.eqb e msg
  | None => false
  end.

(** The loop [for i, e := range entities.EntityDescriptors] of
    [ParseMetadata] with the [return] statement after it. *)
Fixpoint range_IDPSSO `{SamlDecls} (es : list EntityDescriptor) : result EntityDescriptor :=
  match es with
  | [] => Err no_entity_found
  | e :: rest =>
      if (0 <? Z.of_nat (length (IDPSSODescriptors e)))
      then Ok e
      else range_IDPSSO rest
  end.

Definition ParseMetadata `{XmlLib} (data : list byte) : result EntityDescriptor :=
  let entity := EntityDescriptor_zero in
  match xrv_Validate data with
  | Some err => Err err
  | None =>
      let '(entity, err) := xml_Unmarshal_EntityDescriptor data entity in
      if error_is err expected_EntityDescriptor then
        let entities := EntitiesDescriptor_zero in
        let '(entities, err) := xml_Unmarshal_EntitiesDescriptor data entities in
        match err with
        | Some err => Err err
        | None => range_IDPSSO (EntityDescriptors entities)
        end
      else
        match err with
        | Some err => Err err
        | None => Ok entity
        end
  end.

Definition ParseEntitiesMetadata `{XmlLib} (data : list byte) : result EntitiesDescriptor :=
  let entities := EntitiesDescriptor_zero in
  match xrv_Validate data with
  | Some err => Err err
  | None =>
      let '(entities, err) := xml_Unmarshal_EntitiesDescriptor data entities in
      if error_is err expected_EntitiesDescriptor then
        let entity := EntityDescriptor_zero in
        let '(entity, err) := xml_Unmarshal_EntityDescriptor data entity in
        match err with
        | Some err => Err err
        | None => Ok (set_EntityDescriptors [entity] entities)
        end
      else
        match err with
        | Some err => Err err
        | None => Ok entities
        end
  end.

(** ** [net/url]

    The [URL] structure, query values and their encoding are modelled on
    [net/url]; [Parse] and [URL.String] are taken as the library provides
    them. *)
Module url.

Record Userinfo : Type := {
  username : string;
  password : string;
  passwordSet : bool;
}.

Record URL : Type := {
  Scheme : string;
  Opaque : string;
  User : option Userinfo;
  Host : string;
  Path : string;
  RawPath : string;
  OmitHost : bool;
  ForceQuery : bool;
  RawQuery : string;
  Fragment : string;
  RawFragment : string;
}.

(** [u.RawQuery = q] *)
Definition set_RawQuery (q : string) (u : URL) : URL :=
  {| Scheme := Scheme u; Opaque := Opaque u; User := User u; Host := Host u;
     Path := Path u; RawPath := RawPath u; OmitHost := OmitHost u;
     ForceQuery := ForceQuery u; RawQuery := q;
     Fragment := Fragment u; RawFragment := RawFragment u |}.

(** [url.Parse] and the method [String] of [URL]. *)
Class Lib : Type := {
  Parse : string -> result URL;
  String_ : URL -> string;
}.

(** *** Bytes *)

Definition byte_in (lo hi c : ascii) : bool :=
  (N_of_ascii lo <=? N_of_ascii c)%N && (N_of_ascii c <=? N_of_ascii hi)%N.

Definition is_alnum (c : ascii) : bool :=
  byte_in "a" "z" c || byte_in "A" "Z" c || byte_in "0" "9" c.

(** [shouldEscape(c, encodeQueryComponent)]: everything but the
    unreserved characters of RFC 3986 (section 2.3) is escaped. *)
Definition shouldEscape (c : ascii) : bool :=
  if is_alnum c then false
  else if (Ascii.eqb c "-" || Ascii.eqb c "_" || Ascii.eqb c "." || Ascii.eqb c "~")%char
  then false
  else true.

(** [upperhex[n]] for [n < 16]. *)
Definition upperhex (n : N) : ascii :=
  match String.get (N.to_nat n) "0123456789ABCDEF" with
  | Some c => c
  | None => "0"%char
  end.

(** [escape(s, encodeQueryComponent)]: a space becomes [+], an escaped
    byte [c] becomes [%] followed by [upperhex[c>>4]] and
    [upperhex[c&15]]. *)
Fixpoint QueryEscape (s : string) : string :=
  match s with
  | EmptyString => EmptyString
  | String c rest =>
      if Ascii.eqb c " " then String "+" (QueryEscape rest)
      else if shouldEscape c then
        String "%" (String (upperhex (N.shiftr (N_of_ascii c) 4))
                   (String (upperhex (N.land (N_of_ascii c) 15))
                           (QueryEscape rest)))
      else String c (QueryEscape rest)
  end.

(** [ishex] and [unhex]: the value of a hexadecimal digit. *)
Definition unhex (c : ascii) : option N :=
  if byte_in "0" "9" c then Some (N_of_ascii c - N_of_ascii "0")%N
  else if byte_in "a" "f" c then Some (N_of_ascii c - N_of_ascii "a" + 10)%N
  else if byte_in "A" "F" c then Some (N_of_ascii c - N_of_ascii "A" + 10)%N
  else None.

(** [unescape(s, encodeQueryComponent)]; [None] stands for the
    [EscapeError]. *)
Fixpoint QueryUnescape (s : string) : option string :=
  match s with
  | EmptyString => Some EmptyString
  | String "%" (String h (String l rest)) =>
      match unhex h, unhex l with
      | Some hv, Some lv =>
          match QueryUnescape rest with
          | Some r => Some (String (ascii_of_N (N.lor (N.shiftl hv 4) lv)) r)
          | None => None
          end
      | _, _ => None
      end
  | String "%" _ => None
  | String "+" rest =>
      match QueryUnescape rest with
      | Some r => Some (String " " r)
      | None => None
      end
  | String c rest =>
      match QueryUnescape rest with
      | Some r => Some (String c r)
      | None => None
      end
  end.

(** [strings.Cut(s, sep)] for a one-byte separator. *)
Fixpoint Cut (s : string) (sep : ascii) : string * string * bool :=
  match s with
  | EmptyString => (EmptyString, EmptyString, false)
  | String c rest =>
      if Ascii.eqb c sep then (EmptyString, rest, true)
      else let '(before, after, found) := Cut rest sep in
           (String c before, after, found)
  end.

(** [strings.Contains(s, sep)] for a one-byte separator. *)
Fixpoint Contains (s : string) (sep : ascii) : bool :=
  match s with
  | EmptyString => false
  | String c rest => Ascii.eqb c sep || Contains rest sep
  end.

(** *** Query values

    [Values] is [map[string][]string]. *)
Abbreviation Values := (gmap string (list string)).

(** [v[key] = append(v[key], value)] *)
Definition Values_Add (v : Values) (key value : string) : Values :=
  <[key := (default [] (v !! key) ++ [value])%list]> v.

(** The loop of [parseQuery]. Every turn on a non-empty [query] removes
    at least one byte from it, so [String.length query] turns suffice
    (see [parseQuery_fuel]). [Query] discards the error of [ParseQuery],
    so the error is not tracked: a pair that is malformed is skipped. *)
Fixpoint parseQuery (fuel : nat) (m : Values) (query : string) : Values :=
  match fuel with
  | O => m
  | S fuel =>
      if String.eqb query "" then m
      else
        let '(key, query, _) := Cut query "&" in
        if Contains key ";" then parseQuery fuel m query
        else if String.eqb key "" then parseQuery fuel m query
        else
          let '(key, value, _) := Cut key "=" in
          match QueryUnescape key with
          | None => parseQuery fuel m query
          | Some key =>
              match QueryUnescape value with
              | None => parseQuery fuel m query
              | Some value => parseQuery fuel (Values_Add m key value) query
              end
          end
  end.

Definition ParseQuery (query : string) : Values :=
  parseQuery (String.length query) ∅ query.

(** [u.Query()] *)
Definition Query (u : URL) : Values := ParseQuery (RawQuery u).

(** The keys of [v], sorted ([slices.Sort(keys)]) in the order of Go
    strings, which is bytewise lexicographic ([String.le]). *)
Definition sorted_keys (v : Values) : list string :=
  merge_sort String.le (map fst (map_to_list v)).

(** The inner loop of [Encode]: the values of one key. *)
Definition Encode_values (keyEscaped : string) (buf : string) (vs : list string) : string :=
  foldl (fun buf v =>
           let buf := if (0 <? Z.of_nat (String.length buf)) then buf ++ "&" else buf in
           buf ++ keyEscaped ++ "=" ++ QueryEscape v)
        buf vs.

(** [v.Encode()] *)
Definition Encode (v : Values) : string :=
  if decide (size v = 0%nat) then ""
  else
    foldl (fun buf k =>
             let vs := default [] (v !! k) in
             let keyEscaped := QueryEscape k in
             Encode_values keyEscaped buf vs)
          "" (sorted_keys v).

End url.

(** ** [net/http], [io], [fmt], [encoding/base64], [crypto/x509] *)
Module http.

(** A response: its status code, what [io.ReadAll(resp.Body)] yields and
    what [resp.Body.Close()] returns. *)
Record Response : Type := {
  StatusCode : Z;
  Body_ReadAll : list byte * option error;
  Body_Close : option error;
}.

(** [context.Context], [http.Request], [http.Client] with
    [http.NewRequest] (method and URL; the body is nil),
    [Request.WithContext] and [Client.Do]. *)
Class Lib : Type := {
  Context_ : Type;
  Request : Type;
  Client : Type;
  NewRequest : string -> string -> result Request;
  WithContext : Request -> Context_ -> Request;
  Do : Client -> Request -> result Response;
}.

End http.

(** The verb [%d] of [fmt]: a decimal numeral, with a minus sign for a
    negative number. *)
Definition fmt_d (n : Z) : string := NilZero.string_of_int (Z.to_int n).

Module base64.

Definition encodeStd : string :=
  "ABCDEFGHIJKLMNOPQRSTUVWXYZabcdefghijklmnopqrstuvwxyz0123456789+/".

Definition digit (n : N) : ascii :=
  match String.get (N.to_nat (N.land n 63)) encodeStd with
  | Some c => c
  | None => "A"%char
  end.

(** [base64.StdEncoding.EncodeToString]: three bytes give four digits;
    a remainder of one or two bytes is padded with [=]. *)
Fixpoint EncodeToString (src : list byte) : string :=
  match src with
  | [] => ""
  | [a] =>
      let val := N.shiftl (Byte.to_N a) 16 in
      String (digit (N.shiftr val 18)) (String (digit (N.shiftr val 12)) "==")
  | [a; b] =>
      let val := N.lor (N.shiftl (Byte.to_N a) 16) (N.shiftl (Byte.to_N b) 8) in
      String (digit (N.shiftr val 18)) (String (digit (N.shiftr val 12))
             (String (digit (N.shiftr val 6)) "="))
  | a :: b :: c :: rest =>
      let val := N.lor (N.lor (N.shiftl (Byte.to_N a) 16) (N.shiftl (Byte.to_N b) 8))
                       (Byte.to_N c) in
      String (digit (N.shiftr val 18)) (String (digit (N.shiftr val 12))
             (String (digit (N.shiftr val 6)) (String (digit val)
             (EncodeToString rest))))
  end.

End base64.

(** ** Byte slices

    A Go slice is a window on a backing array: [smp.Certificate.Raw] and
    the [Raw] of the intermediates are such windows, several of which may
    lie in one array (the certificates of one DER bundle do). [append]
    writes behind the window when the capacity allows it, into bytes that
    another window may show, so that the model keeps the arrays in a store
    and passes the store along. *)
Module slice.

(** A slice header: the backing array (its index in the store), the
    offset of the first element in it, the length and the capacity. *)
Record t : Type := { array : nat; offset : nat; len : nat; cap : nat }.

(** The backing arrays. *)
Abbreviation Memory := (list (list byte)).

(** The capacity that the runtime gives to the array of a slice that
    outgrows capacity [old] and needs [needed] elements. It depends on the
    Go version and on the allocator's size classes. *)
Class Runtime : Type := { growcap : nat -> nat -> nat }.

(** The elements of a slice. *)
Definition read (mem : Memory) (s : t) : list byte :=
  take (len s) (drop (offset s) (default [] (mem !! array s))).

(** Copying [data] into an array from index [i] on. *)
Definition write (arr : list byte) (i : nat) (data : list byte) : list byte :=
  (take i arr ++ data ++ drop (i + length data) arr)%list.

(** [append(s, data...)]: if the capacity of [s] holds the result, [data]
    is copied behind the elements of [s] in the backing array of [s];
    otherwise the elements of [s] and [data] are copied to a fresh array.
    ([data] is the value of the appended slice before the copy, which is
    what the runtime's [memmove] copies also when the two overlap.) *)
Definition append `{Runtime} (mem : Memory) (s : t) (data : list byte) : t * Memory :=
  let n := (len s + length data)%nat in
  if (n <=? cap s)%nat then
    ({| array := array s; offset := offset s; len := n; cap := cap s |},
     alter (fun arr => write arr (offset s + len s) data) (array s) mem)
  else
    let newcap := Nat.max n (growcap (cap s) n) in
    ({| array := length mem; offset := 0%nat; len := n; cap := newcap |},
     (mem ++ [read mem s ++ data ++ replicate (newcap - n) x00])%list).

End slice.

Module x509.
(** [x509.Certificate]; only [Raw] is read. *)
Record Certificate : Type := { Raw : slice.t }.
End x509.

(** ** [samlsp/fetch_metadata.go]: the fetcher

    [fetchMetadata] talks to the network. Its model returns, next to the
    result, the sequence of operations it performed on the response and on
    the parse function, in the order the code performs them. *)
Inductive Event : Type :=
| EvDo                          (* httpClient.Do(req) *)
| EvReadAll                     (* io.ReadAll(resp.Body) *)
| EvParse (data : list byte)    (* f(data) *)
| EvClose                       (* resp.Body.Close(), deferred *)
| EvPrintf (msg : string).      (* logger.DefaultLogger.Printf *)

(** The deferred function of [fetchMetadata]. *)
Definition deferred_Close (resp : http.Response) : list Event :=
  EvClose ::
  match http.Body_Close resp with
  | Some err =>
      [EvPrintf ("Error while closing response body during fetch metadata: " ++ err)]
  | None => []
  end.

Definition unexpected_status (code : Z) : error :=
  "failed to fetch metadata: unexpected status code " ++ fmt_d code.

Definition fetchMetadata `{url.Lib} `{http.Lib} {R : Type}
    (ctx : http.Context_) (httpClient : http.Client) (metadataURL : url.URL)
    (f : list byte -> result R) : result R * list Event :=
  match http.NewRequest "GET" (url.String_ metadataURL) with
  | Err err => (Err err, [])
  | Ok req =>
      let req := http.WithContext req ctx in
      match http.Do httpClient req with
      | Err err => (Err err, [EvDo])
      | Ok resp =>
          let '(r, evs) :=
            if 400 <=? http.StatusCode resp then
              (Err (unexpected_status (http.StatusCode resp)), [])
            else
              let '(data, err) := http.Body_ReadAll resp in
              match err with
              | Some err => (Err err, [EvReadAll])
              | None => (f data, [EvReadAll; EvParse data])
              end in
          (r, EvDo :: evs ++ deferred_Close resp)
      end
  end.

(** Deprecated in the source in favour of the two functions after it. *)
Definition FetchMetadata `{XmlLib} `{url.Lib} `{http.Lib}
    (ctx : http.Context_) (httpClient : http.Client) (metadataURL : url.URL)
    : result EntityDescriptor * list Event :=
  fetchMetadata ctx httpClient metadataURL ParseMetadata.

Definition FetchEntityMetatada `{XmlLib} `{url.Lib} `{http.Lib}
    (ctx : http.Context_) (httpClient : http.Client) (metadataURL : url.URL)
    : result EntityDescriptor * list Event :=
  fetchMetadata ctx httpClient metadataURL ParseMetadata.

Definition FetchEntitiesMetadata `{XmlLib} `{url.Lib} `{http.Lib}
    (ctx : http.Context_) (httpClient : http.Client) (metadataURL : url.URL)
    : result EntitiesDescriptor * list Event :=
  fetchMetadata ctx httpClient metadataURL ParseEntitiesMetadata.

(** ** Package [saml]: the multi-tenant registry

    The capability fields [Key], [HTTPClient] and [SignatureVerifier] are
    read by none of the three methods and are left out. [Certificate] and
    [IDPMetadata] are pointers that may be nil. [Intermediates] holds
    pointers as well; its elements are taken to be non-nil, as
    [x509.ParseCertificate] produces them. *)
Record ServiceMultipleProvider `{SamlDecls} : Type := {
  SMP_EntityID : string;
  Providers : gmap string ServiceProvider;
  Certificate : option x509.Certificate;
  Intermediates : list x509.Certificate;
  MetadataURL : url.URL;
  AcsURL : url.URL;
  SloURL : url.URL;
  IDPMetadata : option EntitiesDescriptor;
  AuthnNameIDFormat : string;
  MetadataValidDuration : Z;
  ForceAuthn : option bool;
  SMP_RequestedAuthnContext : option RequestedAuthnContext;
  AllowIDPInitiated : bool;
  DefaultRedirectURI : string;
  SignatureMethod : string;
  LogoutBindings : list string;
}.

(** [fmt.Errorf("no service provider found for entityID %s", entityID)] *)
Definition no_service_provider (entityID : string) : error :=
  "no service provider found for entityID " ++ entityID.

Definition GetServiceProvider `{SamlDecls}
    (smp : ServiceMultipleProvider) (entityID : string) : ServiceProvider * option error :=
  match Providers smp !! entityID with
  | None => (ServiceProvider_zero, Some (no_service_provider entityID))
  | Some sp => (sp, None)
  end.

Definition identity_name_not_set : error := "identity name is not set".

Definition MakeWayfRedirectionRequest `{SamlDecls} `{url.Lib}
    (smp : ServiceMultipleProvider) (relayState returnUrl : string) : run (result url.URL) :=
  match url.Parse returnUrl with
  | Err err => Returns (Err err)
  | Ok u =>
      let query := url.Query u in
      let query := url.Values_Add query "rs" relayState in
      let u := url.set_RawQuery (url.Encode query) u in
      match IDPMetadata smp with
      | None => Panics nil_dereference
      | Some idp =>
          let wayfUrl := Name idp in
          match wayfUrl with
          | None => Returns (Err identity_name_not_set)
          | Some wayfUrl =>
              match url.Parse wayfUrl with
              | Err err => Returns (Err err)
              | Ok wu =>
                  let query := url.Query wu in
                  let query := url.Values_Add query "return" (url.String_ u) in
                  let query := url.Values_Add query "entityID" (SMP_EntityID smp) in
                  let wu := url.set_RawQuery (url.Encode query) wu in
                  Returns (Ok wu)
              end
          end
      end
  end.

(** Modelled from the spec: [firstSet] is declared in another file of
    package [saml]; the entity identifier is the configured one if set,
    else the string form of the metadata URL. *)
Definition firstSet (a b : string) : string :=
  if String.eqb a "" then b else a.

Definition encryption_algorithms : list EncryptionMethod :=
  [ {| Algorithm := "http://www.w3.org/2001/04/xmlenc#aes128-cbc" |};
    {| Algorithm := "http://www.w3.org/2001/04/xmlenc#aes192-cbc" |};
    {| Algorithm := "http://www.w3.org/2001/04/xmlenc#aes256-cbc" |};
    {| Algorithm := "http://www.w3.org/2001/04/xmlenc#rsa-oaep-mgf1p" |} ].

(** [KeyInfo{X509Data{X509Certificates: []X509Certificate{{Data: data}}}}] *)
Definition KeyInfo_of (data : string) : KeyInfo :=
  {| KeyInfo_X509Data := {| X509Certificates := [ {| X509Certificate_Data := data |} ] |} |}.

(** [certBytes := smp.Certificate.Raw] and the loop over
    [smp.Intermediates]: [certBytes] starts as the leaf's own slice, and
    each [append] reads the intermediate's bytes from the store as the
    earlier iterations left it. *)
Definition certBytes_loop `{slice.Runtime}
    (leaf : x509.Certificate) (intermediates : list x509.Certificate) (mem : slice.Memory)
    : slice.t * slice.Memory :=
  foldl (fun '(certBytes, mem) intermediate =>
           slice.append mem certBytes (slice.read mem (x509.Raw intermediate)))
        (x509.Raw leaf, mem) intermediates.

Definition keyDescriptors_of `{SamlDecls} `{slice.Runtime}
    (smp : ServiceMultipleProvider) (mem : slice.Memory) : list KeyDescriptor * slice.Memory :=
  match Certificate smp with
  | None => ([], mem)
  | Some cert =>
      let '(certBytes, mem) := certBytes_loop cert (Intermediates smp) mem in
      let keyDescriptors :=
        [ {| Use := "encryption";
             KeyDescriptor_KeyInfo :=
               KeyInfo_of (base64.EncodeToString (slice.read mem certBytes));
             EncryptionMethods := encryption_algorithms |} ] in
      if 0 <? Z.of_nat (String.length (SignatureMethod smp)) then
        ((keyDescriptors ++
           [ {| Use := "signing";
                KeyDescriptor_KeyInfo :=
                  KeyInfo_of (base64.EncodeToString (slice.read mem certBytes));
                EncryptionMethods := [] |} ])%list, mem)
      else (keyDescriptors, mem)
  end.

Definition Endpoint_zero : Endpoint :=
  {| Endpoint_Binding := ""; Endpoint_Location := ""; Endpoint_ResponseLocation := "" |}.

(** [make([]Endpoint, len(smp.LogoutBindings))] and the loop that fills
    it by index. *)
Definition sloEndpoints_of `{SamlDecls} `{url.Lib} (smp : ServiceMultipleProvider) : list Endpoint :=
  foldl (fun sloEndpoints '(i, binding) =>
           <[i := {| Endpoint_Binding := binding;
                     Endpoint_Location := url.String_ (SloURL smp);
                     Endpoint_ResponseLocation := url.String_ (SloURL smp) |}]> sloEndpoints)
        (replicate (length (LogoutBindings smp)) Endpoint_zero)
        (imap pair (LogoutBindings smp)).

(** [Metadata]; [now] is what [TimeNow()] returns during the call and
    [mem] the backing arrays before it. The result comes with the backing
    arrays after the call. *)
Definition Metadata `{SamlDecls} `{url.Lib} `{slice.Runtime}
    (now : Time) (smp : ServiceMultipleProvider) (mem : slice.Memory)
    : EntityDescriptor * slice.Memory :=
  let validDuration :=
    if 0 <? MetadataValidDuration smp then MetadataValidDuration smp
    else DefaultValidDuration in
  let authnRequestsSigned := 0 <? Z.of_nat (String.length (SignatureMethod smp)) in
  let wantAssertionsSigned := true in
  let validUntil := Time_Add now validDuration in
  let keys := keyDescriptors_of smp mem in
  let keyDescriptors := keys.1 in
  let mem := keys.2 in
  let sloEndpoints := sloEndpoints_of smp in
  ({| EntityID := firstSet (SMP_EntityID smp) (url.String_ (MetadataURL smp));
      ValidUntil := validUntil;
      IDPSSODescriptors := [];
      SPSSODescriptors :=
        [ {| SPSSODescriptor_SSODescriptor :=
               {| SSODescriptor_RoleDescriptor :=
                    {| ProtocolSupportEnumeration := "urn:oasis:names:tc:SAML:2.0:protocol";
                       KeyDescriptors := keyDescriptors;
                       RoleDescriptor_ValidUntil := Some validUntil |};
                  SingleLogoutServices := sloEndpoints;
                  NameIDFormats := [AuthnNameIDFormat smp] |};
             AuthnRequestsSigned := Some authnRequestsSigned;
             WantAssertionsSigned := Some wantAssertionsSigned;
             AssertionConsumerServices :=
               [ {| IndexedEndpoint_Binding := HTTPPostBinding;
                    IndexedEndpoint_Location := url.String_ (AcsURL smp);
                    IndexedEndpoint_Index := 1 |};
                 {| IndexedEndpoint_Binding := HTTPArtifactBinding;
                    IndexedEndpoint_Location := url.String_ (AcsURL smp);
                   IndexedEndpoint_Index := 2 |} ] |} ] |}, mem).

(** ** A concrete environment

    Stand-ins for the parameters above, on which the model runs: a clock on
    the integers, [net/url] on plain absolute URLs, an XML decoder defined
    on sample documents, and an HTTP client given by its round trip. They
    serve to evaluate the model on concrete inputs. *)
Module Sample.

#[local] Instance decls : SamlDecls := {|
  Time := Z;
  Time_zero := 0;
  Time_Add := Z.add;
  IDPSSODescriptor := string;
  ServiceProvider := string;
  ServiceProvider_zero := "";
  RequestedAuthnContext := string;
  DefaultValidDuration := 48 * 3600 * 1000000000;
  HTTPPostBinding := "urn:oasis:names:tc:SAML:2.0:bindings:HTTP-POST";
  HTTPArtifactBinding := "urn:oasis:names:tc:SAML:2.0:bindings:HTTP-Artifact";
|}.

(** The instant at which the sample calls read the clock. *)
Definition noon : @Time decls := 1000.

(** *** [net/url] on plain URLs

    [scheme://host/path?query] with a scheme of lower-case letters, a
    non-empty host of unreserved bytes, a path of unreserved bytes and
    slashes, and a query of printable bytes without [#]. On these,
    [url.Parse] neither unescapes nor normalises anything and
    [URL.String] escapes nothing. Every other string is refused by the
    stand-in. *)
Definition unreserved (c : ascii) : bool := negb (url.shouldEscape c).

Definition path_byte (c : ascii) : bool := unreserved c || Ascii.eqb c "/".

Definition query_byte (c : ascii) : bool :=
  url.byte_in "!" "~" c && negb (Ascii.eqb c "#").

Fixpoint all_bytes (p : ascii -> bool) (s : string) : bool :=
  match s with
  | EmptyString => true
  | String c rest => p c && all_bytes p rest
  end.

Definition not_plain : error := "not a plain URL".

Definition plain_Parse (rawURL : string) : result url.URL :=
  let '(scheme, rest, colon) := url.Cut rawURL ":" in
  if colon && negb (String.eqb scheme "") && all_bytes (url.byte_in "a" "z") scheme then
    let '(rest, rawQuery, mark) := url.Cut rest "?" in
    match rest with
    | String "/" (String "/" rest) =>
        let '(authority, path, slash) := url.Cut rest "/" in
        let path := if slash then String "/" path else "" in
        if negb (String.eqb authority "") && all_bytes unreserved authority
           && all_bytes path_byte path && all_bytes query_byte rawQuery
        then Ok {| url.Scheme := scheme; url.Opaque := ""; url.User := None;
                   url.Host := authority; url.Path := path; url.RawPath := "";
                   url.OmitHost := false;
                   url.ForceQuery := mark && String.eqb rawQuery "";
                   url.RawQuery := rawQuery;
                   url.Fragment := ""; url.RawFragment := "" |}
        else Err not_plain
    | _ => Err not_plain
    end
  else Err not_plain.

Definition plain_String (u : url.URL) : string :=
  url.Scheme u ++ "://" ++ url.Host u ++ url.Path u ++
  (if url.ForceQuery u || negb (String.eqb (url.RawQuery u) "")
   then "?" ++ url.RawQuery u else "").

#[local] Instance urls : url.Lib := {|
  url.Parse := plain_Parse;
  url.String_ := plain_String;
|}.

(** *** An XML decoder on two sample documents *)
Definition idp_entity (id : string) : EntityDescriptor :=
  {| EntityID := id; ValidUntil := 0;
     IDPSSODescriptors := ["urn:oasis:names:tc:SAML:2.0:protocol"];
     SPSSODescriptors := [] |}.

Definition plain_entity (id : string) : EntityDescriptor :=
  {| EntityID := id; ValidUntil := 0;
     IDPSSODescriptors := []; SPSSODescriptors := [] |}.

(** A standalone [EntityDescriptor] with one IDP role descriptor. *)
Definition doc_entity : list byte :=
  list_byte_of_string
    "<EntityDescriptor entityID='B'><IDPSSODescriptor protocolSupportEnumeration='urn:oasis:names:tc:SAML:2.0:protocol'/></EntityDescriptor>".

(** An [EntitiesDescriptor] with the entities A (no IDP role
    descriptor), B and C (one each). *)
Definition doc_entities : list byte :=
  list_byte_of_string
    "<EntitiesDescriptor Name='https://idp.example/wayf'><EntityDescriptor entityID='A'/><EntityDescriptor entityID='B'><IDPSSODescriptor protocolSupportEnumeration='urn:oasis:names:tc:SAML:2.0:protocol'/></EntityDescriptor><EntityDescriptor entityID='C'><IDPSSODescriptor protocolSupportEnumeration='urn:oasis:names:tc:SAML:2.0:protocol'/></EntityDescriptor></EntitiesDescriptor>".

Definition entities_ABC : EntitiesDescriptor :=
  {| Name := Some "https://idp.example/wayf";
     EntityDescriptors := [plain_entity "A"; idp_entity "B"; idp_entity "C"] |}.

Definition bytes_eqb (a b : list byte) : bool :=
  String.eqb (string_of_list_byte a) (string_of_list_byte b).

#[local] Instance xml : XmlLib := {|
  xrv_Validate := fun data =>
    if bytes_eqb data doc_entity || bytes_eqb data doc_entities then None
    else Some "validator: unexpected EOF while parsing element";
  xml_Unmarshal_EntityDescriptor := fun data entity =>
    if bytes_eqb data doc_entity then (idp_entity "B", None)
    else if bytes_eqb data doc_entities then (entity, Some expected_EntityDescriptor)
    else (entity, Some "EOF");
  xml_Unmarshal_EntitiesDescriptor := fun data entities =>
    if bytes_eqb data doc_entities then (entities_ABC, None)
    else if bytes_eqb data doc_entity then (entities, Some expected_EntitiesDescriptor)
    else (entities, Some "EOF");
|}.

(** *** An HTTP client given by its round trip *)
#[local] Instance https : http.Lib := {|
  http.Context_ := unit;
  http.Request := string;
  http.Client := string -> result http.Response;
  http.NewRequest := fun method rawURL => Ok rawURL;
  http.WithContext := fun req ctx => req;
  http.Do := fun client req => client req;
|}.

Definition not_found_page : http.Response :=
  {| http.StatusCode := 404;
     http.Body_ReadAll := (doc_entity, None);
     http.Body_Close := None |}.

Definition idp_endpoint (path : string) : url.URL :=
  {| url.Scheme := "https"; url.Opaque := ""; url.User := None;
     url.Host := "idp.example"; url.Path := path; url.RawPath := "";
     url.OmitHost := false; url.ForceQuery := false; url.RawQuery := "";
     url.Fragment := ""; url.RawFragment := "" |}.

Definition metadata_endpoint : url.URL := idp_endpoint "/metadata".

Definition sp_endpoint (path : string) : url.URL :=
  {| url.Scheme := "https"; url.Opaque := ""; url.User := None;
     url.Host := "sp.example"; url.Path := path; url.RawPath := "";
     url.OmitHost := false; url.ForceQuery := false; url.RawQuery := "";
     url.Fragment := ""; url.RawFragment := "" |}.

(** A runtime whose arrays double when they grow. *)
#[local] Instance runtime : slice.Runtime := {|
  slice.growcap := fun old _ => (2 * old)%nat;
|}.

(** The slice that shows the whole of an array of the given length. *)
Definition whole (array length : nat) : slice.t :=
  {| slice.array := array; slice.offset := 0%nat; slice.len := length; slice.cap := length |}.

(** The backing arrays of the sample certificates: the leaf and the two
    intermediates of [registry], each in an array of its own. *)
Definition memory : slice.Memory :=
  [ [x30; x82; x01; x0a]; [x30; x82; x02]; [x30; x03] ].

(** A tenant registry, given its certificate, signature method, logout
    bindings, validity and identity-provider metadata. *)
Definition registry (cert : option x509.Certificate) (signatureMethod : string)
    (bindings : list string) (valid : Z) (idp : option EntitiesDescriptor)
    : ServiceMultipleProvider :=
  {| SMP_EntityID := "https://sp.example/saml";
     Providers := {[ "urn:a" := "provider a" ]};
     Certificate := cert;
     Intermediates := [ {| x509.Raw := whole 1 3 |}; {| x509.Raw := whole 2 2 |} ];
     MetadataURL := sp_endpoint "/saml/metadata";
     AcsURL := sp_endpoint "/saml/acs";
     SloURL := sp_endpoint "/saml/slo";
     IDPMetadata := idp;
     AuthnNameIDFormat := "urn:oasis:names:tc:SAML:2.0:nameid-format:transient";
     MetadataValidDuration := valid;
     ForceAuthn := None;
     SMP_RequestedAuthnContext := None;
     AllowIDPInitiated := false;
     DefaultRedirectURI := "";
     SignatureMethod := signatureMethod;
     LogoutBindings := bindings |}.

Definition leaf : x509.Certificate := {| x509.Raw := whole 0 4 |}.

Definition rsa_sha256 : string := "http://www.w3.org/2001/04/xmldsig-more#rsa-sha256".

(** No certificate, no signature method, no logout binding. *)
Definition tenant (idp : option EntitiesDescriptor) : ServiceMultipleProvider :=
  registry None "" [] 0 idp.

(** A certificate, a signature method, two logout bindings and a
    validity of one hour. *)
Definition signing_tenant : ServiceMultipleProvider :=
  registry (Some leaf) rsa_sha256 [HTTPPostBinding; "urn:oasis:names:tc:SAML:2.0:bindings:HTTP-Redirect"]
           3600000000000 (Some entities_ABC).

End Sample.

(** ** Vocabulary of the specification *)

(** An entity carries an IDP role descriptor. *)
Definition has_IDPSSO `{SamlDecls} (e : EntityDescriptor) : Prop :=
  IDPSSODescriptors e ≠ [].

(** [e] is the first entity of [es], in document order, that carries an
    IDP role descriptor. *)
Definition first_with_IDPSSO `{SamlDecls} (es : list EntityDescriptor) (e : EntityDescriptor) : Prop :=
  ∃ before after,
    es = (before ++ e :: after)%list ∧ Forall (λ x, ¬ has_IDPSSO x) before ∧ has_IDPSSO e.

(** The text [s] contains the text [sub]. *)
Definition contains (s sub : string) : Prop :=
  ∃ pre post, s = pre ++ sub ++ post.

(** The service-provider role descriptor of a metadata document, and the
    role descriptor inside it. *)
Definition role_of `{SamlDecls} (sp : SPSSODescriptor) : RoleDescriptor :=
  SSODescriptor_RoleDescriptor (SPSSODescriptor_SSODescriptor sp).






(** The certificate blob of a tenant: the base64 text of the leaf's raw
    bytes followed by the raw bytes of every intermediate, in order, as
    the backing arrays [mem] hold them. *)
Definition certificate_blob (mem : slice.Memory)
    (leaf : x509.Certificate) (intermediates : list x509.Certificate) : string :=
  base64.EncodeToString
    (slice.read mem (x509.Raw leaf)
     ++ concat (map (λ c, slice.read mem (x509.Raw c)) intermediates))%list.

(** A slice lies within its backing array. *)
Definition in_bounds (mem : slice.Memory) (s : slice.t) : Prop :=
  match mem !! slice.array s with
  | Some arr => (slice.offset s + slice.cap s ≤ length arr)%nat ∧ (slice.len s ≤ slice.cap s)%nat
  | None => False
  end.

#[global] Instance in_bounds_dec (mem : slice.Memory) (s : slice.t) : Decision (in_bounds mem s).
Proof. unfold in_bounds. destruct (mem !! slice.array s); apply _. Defined.

(** The spare capacity of the slice [leaf]: the positions [p] of its
    backing array [a] behind its elements and within its capacity. *)
Definition in_spare (leaf : slice.t) (a p : nat) : Prop :=
  a = slice.array leaf
  ∧ (slice.offset leaf + slice.len leaf ≤ p < slice.offset leaf + slice.cap leaf)%nat.

(** No element of the slice [c] lies in the spare capacity of [leaf]:
    [c] is in another array, or ends before the spare capacity starts, or
    starts behind it, or has no element. *)
Definition clear_of_spare (leaf c : slice.t) : Prop :=
  slice.array c ≠ slice.array leaf
  ∨ (slice.offset c + slice.len c ≤ slice.offset leaf + slice.len leaf)%nat
  ∨ (slice.offset leaf + slice.cap leaf ≤ slice.offset c)%nat
  ∨ slice.len c = 0%nat.

#[global] Instance clear_of_spare_dec (leaf c : slice.t) : Decision (clear_of_spare leaf c).
Proof. unfold clear_of_spare. apply _. Defined.

(** The raw bytes of a chain are within their arrays, and no
    intermediate's raw bytes lie in the spare capacity of the leaf's. *)
Definition chain_unaliased (mem : slice.Memory)
    (leaf : x509.Certificate) (intermediates : list x509.Certificate) : Prop :=
  in_bounds mem (x509.Raw leaf)
  ∧ Forall (λ c, in_bounds mem (x509.Raw c) ∧ clear_of_spare (x509.Raw leaf) (x509.Raw c))
           intermediates.

#[global] Instance chain_unaliased_dec (mem : slice.Memory)
    (leaf : x509.Certificate) (intermediates : list x509.Certificate)
    : Decision (chain_unaliased mem leaf intermediates).
Proof. unfold chain_unaliased. apply _. Defined.

(** The store [m] extends the store [mem] and differs from it at most in
    the spare capacity of [leaf]. *)
Definition agree (leaf : slice.t) (mem m : slice.Memory) : Prop :=
  (length mem ≤ length m)%nat
  ∧ ∀ a arr, mem !! a = Some arr →
      ∃ arr', m !! a = Some arr' ∧ length arr' = length arr
              ∧ ∀ p, ¬ in_spare leaf a p → arr' !! p = arr !! p.

(** The slice [s] is what appending to [leaf] gives: it is in the array
    of [leaf], reaches at least as far as [leaf] does and at most to the
    end of its capacity, or it is in an array allocated after [mem]. *)
Definition grown_from (leaf : slice.t) (mem : slice.Memory) (s : slice.t) : Prop :=
  (slice.array s = slice.array leaf
   ∧ (slice.offset leaf + slice.len leaf ≤ slice.offset s + slice.len s)%nat
   ∧ (slice.offset s + slice.cap s ≤ slice.offset leaf + slice.cap leaf)%nat)
  ∨ (length mem ≤ slice.array s)%nat.

(** The certificate blob that [Metadata] publishes: the base64 text of
    what [certBytes] shows after the loop. *)
Definition published_blob `{slice.Runtime} (mem : slice.Memory)
    (leaf : x509.Certificate) (intermediates : list x509.Certificate) : string :=
  let out := certBytes_loop leaf intermediates mem in
  base64.EncodeToString (slice.read out.2 out.1).

(** The encoded pairs [key=value] of the query values [v] for the keys
    [ks], key by key, the values of a key in their order. *)
Definition encoded_pairs (v : url.Values) (ks : list string) : list string :=
  flat_map (λ k, map (λ x, url.QueryEscape k ++ "=" ++ url.QueryEscape x)
                     (default [] (v !! k))) ks.

(** One pair [key=value], encoded. *)
Definition encode_pair (p : string * string) : string :=
  url.QueryEscape p.1 ++ "=" ++ url.QueryEscape p.2.

(** The pairs of the query values [v] for the keys [ks], key by key. *)
Definition pairs_of (v : url.Values) (ks : list string) : list (string * string) :=
  flat_map (λ k, map (pair k) (default [] (v !! k))) ks.

Definition add_pair (m : url.Values) (p : string * string) : url.Values :=
  url.Values_Add m p.1 p.2.

(** Every key that is present has at least one value, as in the values
    that [ParseQuery] and [Add] build. *)
Definition nonempty_values (v : url.Values) : Prop :=
  ∀ k vs, v !! k = Some vs → vs ≠ [].

(** Writing one more pair to the buffer of [Encode]. *)
Definition write_pair (buf pair : string) : string :=
  (if 0 <? Z.of_nat (String.length buf) then buf ++ "&" else buf) ++ pair.

(** An operation of the trace applies the parse function. *)
Definition is_parse (ev : Event) : Prop :=
  match ev with
  | EvParse _ => True
  | _ => False
  end.

(** ** Further sample values and vocabulary *)
Module Shapes.

(** A standalone EntityDescriptor without role descriptor, the same entity
    as the sole member of an EntitiesDescriptor, and an EntitiesDescriptor
    whose only member is the metadata that a tenant publishes. *)
Definition doc_single : list byte :=
  list_byte_of_string "<EntityDescriptor entityID='A'/>".

Definition doc_wrapped : list byte :=
  list_byte_of_string
    "<EntitiesDescriptor><EntityDescriptor entityID='A'/></EntitiesDescriptor>".

Definition doc_published : list byte :=
  list_byte_of_string
    "<EntitiesDescriptor><EntityDescriptor entityID='https://sp.example/saml'><SPSSODescriptor protocolSupportEnumeration='urn:oasis:names:tc:SAML:2.0:protocol'/></EntityDescriptor></EntitiesDescriptor>".

Definition published : @EntityDescriptor Sample.decls :=
  (@Metadata Sample.decls Sample.urls Sample.runtime Sample.noon (Sample.tenant None)
             Sample.memory).1.

Definition entities_of (es : list (@EntityDescriptor Sample.decls))
    : @EntitiesDescriptor Sample.decls :=
  {| Name := None; EntityDescriptors := es |}.

(** The decoder of these three documents. *)
#[local] Instance xml : @XmlLib Sample.decls := {|
  xrv_Validate := fun data =>
    if Sample.bytes_eqb data doc_single || Sample.bytes_eqb data doc_wrapped
       || Sample.bytes_eqb data doc_published
    then None
    else Some "validator: unexpected EOF while parsing element";
  xml_Unmarshal_EntityDescriptor := fun data entity =>
    if Sample.bytes_eqb data doc_single then (Sample.plain_entity "A", None)
    else if Sample.bytes_eqb data doc_wrapped || Sample.bytes_eqb data doc_published
    then (entity, Some expected_EntityDescriptor)
    else (entity, Some "EOF");
  xml_Unmarshal_EntitiesDescriptor := fun data entities =>
    if Sample.bytes_eqb data doc_wrapped then (entities_of [Sample.plain_entity "A"], None)
    else if Sample.bytes_eqb data doc_published then (entities_of [published], None)
    else if Sample.bytes_eqb data doc_single
    then (entities, Some expected_EntitiesDescriptor)
    else (entities, Some "EOF");
|}.

(** A response with status 200 whose body is the standalone document of
    [Sample] and whose close fails. *)
Definition ok_page : http.Response :=
  {| http.StatusCode := 200;
     http.Body_ReadAll := (Sample.doc_entity, None);
     http.Body_Close := Some "close tcp: use of closed network connection" |}.

(** The context of the sample calls, the client that answers with
    [ok_page] and the one whose response closes without error. *)
Definition background : @http.Context_ Sample.https := tt.

Definition ok_client : @http.Client Sample.https := fun _ => Ok ok_page.

Definition closing_client : @http.Client Sample.https :=
  fun _ => Ok {| http.StatusCode := 200;
                 http.Body_ReadAll := (Sample.doc_entity, None);
                 http.Body_Close := None |}.

(** A signing tenant given its leaf and intermediates. *)
Definition signing (leaf : x509.Certificate) (intermediates : list x509.Certificate)
    : @ServiceMultipleProvider Sample.decls :=
  {| SMP_EntityID := "https://sp.example/saml";
     Providers := ∅;
     Certificate := Some leaf;
     Intermediates := intermediates;
     MetadataURL := Sample.sp_endpoint "/saml/metadata";
     AcsURL := Sample.sp_endpoint "/saml/acs";
     SloURL := Sample.sp_endpoint "/saml/slo";
     IDPMetadata := None;
     AuthnNameIDFormat := "";
     MetadataValidDuration := 0;
     ForceAuthn := None;
     SMP_RequestedAuthnContext := None;
     AllowIDPInitiated := false;
     DefaultRedirectURI := "";
     SignatureMethod := Sample.rsa_sha256;
     LogoutBindings := [] |}.

(** A chain given by the raw bytes of its leaf and intermediates, each
    in an array of its own: the arrays, the leaf and the intermediates. *)
Definition chain_memory (leaf : list byte) (intermediates : list (list byte)) : slice.Memory :=
  leaf :: intermediates.

Definition chain_leaf (leaf : list byte) : x509.Certificate :=
  {| x509.Raw := Sample.whole 0 (length leaf) |}.

Definition chain_intermediates (intermediates : list (list byte)) : list x509.Certificate :=
  imap (fun i raw => {| x509.Raw := Sample.whole (S i) (length raw) |}) intermediates.

Definition chain (leaf : list byte) (intermediates : list (list byte))
    : @ServiceMultipleProvider Sample.decls :=
  signing (chain_leaf leaf) (chain_intermediates intermediates).






End Shapes.

(** The operations of [fetchMetadata] in the order in which a call may
    perform them. *)
Definition protocol (data : list byte) (msg : string) : list Event :=
  [EvDo; EvReadAll; EvParse data; EvClose; EvPrintf msg].

(** The response [resp] with a close that succeeds. *)
Definition close_succeeds (resp : http.Response) : http.Response :=
  {| http.StatusCode := http.StatusCode resp;
     http.Body_ReadAll := http.Body_ReadAll resp;
     http.Body_Close := None |}.

(** The logout endpoint that [Metadata] builds for a binding. *)
Definition logout_endpoint `{SamlDecls} `{url.Lib}
    (smp : ServiceMultipleProvider) (binding : string) : Endpoint :=
  {| Endpoint_Binding := binding;
     Endpoint_Location := url.String_ (SloURL smp);
     Endpoint_ResponseLocation := url.String_ (SloURL smp) |}.

(** The raw bytes of a certificate chain, leaf first, as the backing
    arrays [mem] hold them. *)
Definition chain_bytes (mem : slice.Memory)
    (leaf : x509.Certificate) (intermediates : list x509.Certificate) : list byte :=
  (slice.read mem (x509.Raw leaf)
   ++ concat (map (λ c, slice.read mem (x509.Raw c)) intermediates))%list.

(** The return URL [u] with the relay state added as parameter [rs]. *)
Definition return_with_rs (u : url.URL) (relayState : string) : url.URL :=
  url.set_RawQuery (url.Encode (url.Values_Add (url.Query u) "rs" relayState)) u.

(** The last value of a parameter. *)
Definition last_value (v : url.Values) (key : string) : option string :=
  last (default [] (v !! key)).

(** * Properties *)

(** ** The library models on known values *)

(** The test vectors of RFC 4648, section 10. *)
Example base64_vectors :
  map (λ s, base64.EncodeToString (list_byte_of_string s))
      [""; "f"; "fo"; "foo"; "foob"; "fooba"; "foobar"]
  = [""; "Zg=="; "Zm8="; "Zm9v"; "Zm9vYg=="; "Zm9vYmE="; "Zm9vYmFy"].
Proof. reflexivity. Qed.

Example fmt_d_values : map fmt_d [404; 0; -5] = ["404"; "0"; "-5"].
Proof. reflexivity. Qed.

Example QueryEscape_url :
  url.QueryEscape "https://sp.example/cb?rs=a b" = "https%3A%2F%2Fsp.example%2Fcb%3Frs%3Da+b".
Proof. reflexivity. Qed.

Example QueryUnescape_values :
  map url.QueryUnescape ["a%2Bb+c%7e"; "a%2"; "%zz"] = [Some "a+b c~"; None; None].
Proof. reflexivity. Qed.

(** Pairs are gathered by key; a pair with a semicolon or a bad escape
    is dropped; the encoding goes by increasing key. *)
Example Encode_ParseQuery_values :
  url.Encode (url.ParseQuery "x=1&b=2&x=3&a;c=4&d=%zz&e") = "b=2&e=&x=1&x=3".
Proof. by vm_compute. Qed.

(** ** The parser *)
Section Parser.
Context `{XmlLib}.

Lemma range_IDPSSO_skip (before rest : list EntityDescriptor) :
  Forall (λ x, ¬ has_IDPSSO x) before →
  range_IDPSSO (before ++ rest) = range_IDPSSO rest.
Proof.
  induction 1 as [|x before Hx _ IH]; [done|].
  cbn. unfold has_IDPSSO in Hx.
  destruct (IDPSSODescriptors x); [apply IH|].
  exfalso. by apply Hx.
Qed.

Lemma range_IDPSSO_first (es : list EntityDescriptor) (e : EntityDescriptor) :
  first_with_IDPSSO es e → range_IDPSSO es = Ok e.
Proof.
  intros (before & after & -> & Hbefore & He).
  rewrite range_IDPSSO_skip by done.
  cbn. unfold has_IDPSSO in He.
  by destruct (IDPSSODescriptors e).
Qed.

Lemma range_IDPSSO_none (es : list EntityDescriptor) :
  Forall (λ x, ¬ has_IDPSSO x) es → range_IDPSSO es = Err no_entity_found.
Proof.
  intros Hes. rewrite <- (app_nil_r es).
  by rewrite range_IDPSSO_skip.
Qed.

(** Every list has a first entity with an IDP role descriptor, or none
    at all. *)
Lemma first_with_IDPSSO_or_none (es : list EntityDescriptor) :
  (∃ e, first_with_IDPSSO es e) ∨ Forall (λ x, ¬ has_IDPSSO x) es.
Proof.
  induction es as [|x es [[e (before & after & -> & Hb & He)]|IH]].
  - right. constructor.
  - left. destruct (IDPSSODescriptors x) as [|d ds] eqn:Hx.
    + exists e, (x :: before), after. split_and!; [done| |done].
      constructor; [|done]. unfold has_IDPSSO. by rewrite Hx; intros [].
    + exists x, [], (before ++ e :: after)%list. split_and!; [done|constructor|].
      unfold has_IDPSSO. by rewrite Hx.
  - destruct (IDPSSODescriptors x) as [|d ds] eqn:Hx.
    + right. constructor; [|done]. unfold has_IDPSSO. by rewrite Hx; intros [].
    + left. exists x, [], es. split_and!; [done|constructor|].
      unfold has_IDPSSO. by rewrite Hx.
Qed.

(** C1. When the document passes validation and its decoding as a single
    EntityDescriptor fails with the root-element mismatch
    (EntitiesDescriptor found), ParseMetadata decodes it as an
    EntitiesDescriptor; an error of that decoding is returned as it is;
    otherwise the result is the first entity, in document order, whose
    IDP role-descriptor list is non-empty, and the NotFound error
    [no_entity_found] when no entity has one. *)
Theorem ParseMetadata_fallback (data : list byte) :
  xrv_Validate data = None →
  (xml_Unmarshal_EntityDescriptor data EntityDescriptor_zero).2
    = Some expected_EntityDescriptor →
  match xml_Unmarshal_EntitiesDescriptor data EntitiesDescriptor_zero with
  | (_, Some err) => ParseMetadata data = Err err
  | (entities, None) =>
      (∀ e, first_with_IDPSSO (EntityDescriptors entities) e →
            ParseMetadata data = Ok e)
      ∧ (Forall (λ x, ¬ has_IDPSSO x) (EntityDescriptors entities) →
            ParseMetadata data = Err no_entity_found)
      ∧ ((∃ e, first_with_IDPSSO (EntityDescriptors entities) e)
         ∨ Forall (λ x, ¬ has_IDPSSO x) (EntityDescriptors entities))
  end.
Proof.
  intros Hvalid Hroot. unfold ParseMetadata. rewrite Hvalid.
  destruct (xml_Unmarshal_EntityDescriptor data EntityDescriptor_zero) as [entity err].
  cbn in Hroot. subst err. unfold error_is. rewrite String.eqb_refl.
  destruct (xml_Unmarshal_EntitiesDescriptor data EntitiesDescriptor_zero)
    as [entities [err|]]; [done|].
  split_and!.
  - apply range_IDPSSO_first.
  - apply range_IDPSSO_none.
  - apply first_with_IDPSSO_or_none.
Qed.

(** C2. When the document passes validation, its decoding as an
    EntitiesDescriptor fails with the symmetric root-element mismatch
    (EntityDescriptor found) and it decodes as a single EntityDescriptor
    [entity], ParseEntitiesMetadata succeeds and the entity list of the
    EntitiesDescriptor it returns is exactly [[entity]]. *)
Theorem ParseEntitiesMetadata_wraps (data : list byte) (entity : EntityDescriptor) :
  xrv_Validate data = None →
  (xml_Unmarshal_EntitiesDescriptor data EntitiesDescriptor_zero).2
    = Some expected_EntitiesDescriptor →
  xml_Unmarshal_EntityDescriptor data EntityDescriptor_zero = (entity, None) →
  ∃ entities,
    ParseEntitiesMetadata data = Ok entities
    ∧ EntityDescriptors entities = [entity].
Proof.
  intros Hvalid Hroot Hentity. unfold ParseEntitiesMetadata. rewrite Hvalid.
  destruct (xml_Unmarshal_EntitiesDescriptor data EntitiesDescriptor_zero)
    as [entities err].
  cbn in Hroot. subst err. unfold error_is. rewrite String.eqb_refl, Hentity.
  by eexists.
Qed.

End Parser.

(** ** The fetcher *)

(** [fmt_d] prints distinct numbers differently: the number is read back
    from its numeral. *)
Lemma fmt_d_inj (a b : Z) : fmt_d a = fmt_d b → a = b.
Proof.
  unfold fmt_d. intros Hab.
  assert (Hto : ∀ z, NilZero.int_of_string (NilZero.string_of_int (Z.to_int z))
                     = Some (Z.to_int z)).
  { intros z. apply NilZero.isi; destruct z; cbn; try discriminate;
      intros [= Hp]; by apply DecimalPos.Unsigned.to_uint_nonnil in Hp. }
  assert (Hint : Z.to_int a = Z.to_int b).
  { apply (f_equal NilZero.int_of_string) in Hab.
    rewrite !Hto in Hab. by injection Hab. }
  by rewrite <- (DecimalZ.of_to a), <- (DecimalZ.of_to b), Hint.
Qed.

Lemma append_cons (c : ascii) (s t : string) : String c s ++ t = String c (s ++ t).
Proof. reflexivity. Qed.

Lemma append_inv_head (p s t : string) : p ++ s = p ++ t → s = t.
Proof. apply String.app_inj. Qed.

(** The retrieval error carries the status code: codes are recovered from
    the message. *)
Lemma unexpected_status_inj (a b : Z) :
  unexpected_status a = unexpected_status b → a = b.
Proof. intros Hab. by apply append_inv_head, fmt_d_inj in Hab. Qed.

Lemma append_nil_r (s : string) : s ++ "" = s.
Proof. induction s as [|c s IH]; [done|]. by rewrite append_cons, IH. Qed.

Lemma unexpected_status_contains (code : Z) :
  contains (unexpected_status code) (fmt_d code).
Proof.
  exists "failed to fetch metadata: unexpected status code ", "".
  by rewrite append_nil_r.
Qed.

Lemma deferred_Close_no_parse (resp : http.Response) :
  Forall (λ ev, ¬ is_parse ev) (deferred_Close resp).
Proof.
  unfold deferred_Close.
  destruct (http.Body_Close resp); repeat constructor; by intros [].
Qed.

Section Fetcher.
Context `{XmlLib} `{!url.Lib} `{!http.Lib}.

(** On a status code of 400 or more, the body is neither read nor
    parsed: the response is closed and the status error returned. *)
Lemma fetchMetadata_status {R : Type}
    (ctx : http.Context_) (httpClient : http.Client) (metadataURL : url.URL)
    (f : list byte → result R) (req : http.Request) (resp : http.Response) :
  http.NewRequest "GET" (url.String_ metadataURL) = Ok req →
  http.Do httpClient (http.WithContext req ctx) = Ok resp →
  400 ≤ http.StatusCode resp →
  fetchMetadata ctx httpClient metadataURL f
  = (Err (unexpected_status (http.StatusCode resp)), EvDo :: deferred_Close resp).
Proof.
  intros Hreq Hdo Hcode. unfold fetchMetadata. rewrite Hreq, Hdo.
  by rewrite (proj2 (Z.leb_le _ _) Hcode).
Qed.

(** C3. When the client returns a response whose status code is 400 or
    more, fetchMetadata with any parse function, and with it
    FetchMetadata, FetchEntityMetatada and FetchEntitiesMetadata, fail
    with the retrieval error [unexpected_status] of that code; the
    message contains the decimal numeral of the code and determines the
    code; the parse function is not applied and the body is not read,
    whatever the body is: the only operations are the request and the
    deferred close. *)
Theorem fetchMetadata_status_error
    (ctx : http.Context_) (httpClient : http.Client) (metadataURL : url.URL)
    (req : http.Request) (resp : http.Response) :
  http.NewRequest "GET" (url.String_ metadataURL) = Ok req →
  http.Do httpClient (http.WithContext req ctx) = Ok resp →
  400 ≤ http.StatusCode resp →
  let failure := unexpected_status (http.StatusCode resp) in
  (∀ (R : Type) (f : list byte → result R),
      let out := fetchMetadata ctx httpClient metadataURL f in
      out.1 = Err failure
      ∧ out.2 = EvDo :: deferred_Close resp
      ∧ Forall (λ ev, ¬ is_parse ev) out.2)
  ∧ (FetchMetadata ctx httpClient metadataURL).1 = Err failure
  ∧ (FetchEntityMetatada ctx httpClient metadataURL).1 = Err failure
  ∧ (FetchEntitiesMetadata ctx httpClient metadataURL).1 = Err failure
  ∧ contains failure (fmt_d (http.StatusCode resp))
  ∧ (∀ code, unexpected_status code = failure → code = http.StatusCode resp).
Proof.
  intros Hreq Hdo Hcode failure.
  unfold FetchMetadata, FetchEntityMetatada, FetchEntitiesMetadata.
  split_and!.
  - intros R f.
    rewrite (fetchMetadata_status ctx httpClient metadataURL f req resp) by done.
    split_and!; [done|done|].
    constructor; [by intros []|apply deferred_Close_no_parse].
  - by rewrite (fetchMetadata_status _ _ _ _ req resp).
  - by rewrite (fetchMetadata_status _ _ _ _ req resp).
  - by rewrite (fetchMetadata_status _ _ _ _ req resp).
  - apply unexpected_status_contains.
  - intros code. apply unexpected_status_inj.
Qed.

End Fetcher.

(** ** The registry: lookup and metadata composition *)

(** [len(s) > 0] holds exactly of the non-empty strings. *)
Lemma len_pos (s : string) : (0 <? Z.of_nat (String.length s)) = negb (String.eqb s "").
Proof. by destruct s. Qed.

Lemma len_pos_true (s : string) : (0 <? Z.of_nat (String.length s)) = true ↔ s ≠ "".
Proof. rewrite len_pos. by destruct s. Qed.

(** *** Slices and [append] *)

Lemma in_bounds_inv (mem : slice.Memory) (s : slice.t) :
  in_bounds mem s →
  ∃ arr, mem !! slice.array s = Some arr
         ∧ (slice.offset s + slice.cap s ≤ length arr)%nat
         ∧ (slice.len s ≤ slice.cap s)%nat.
Proof.
  unfold in_bounds. destruct (mem !! slice.array s) as [arr|]; [|done].
  intros [Hcap Hlen]. by exists arr.
Qed.

Lemma read_lookup (mem : slice.Memory) (s : slice.t) (k : nat) :
  slice.read mem s !! k
  = if decide (k < slice.len s)%nat
    then default [] (mem !! slice.array s) !! (slice.offset s + k)%nat else None.
Proof. unfold slice.read. rewrite lookup_take, lookup_drop. by case_decide. Qed.

Lemma read_length (mem : slice.Memory) (s : slice.t) :
  in_bounds mem s → length (slice.read mem s) = slice.len s.
Proof.
  intros (arr & Harr & Hcap & Hlen)%in_bounds_inv. unfold slice.read.
  rewrite Harr, length_take, length_drop. cbn. lia.
Qed.

Lemma write_length (arr : list byte) (i : nat) (data : list byte) :
  (i + length data ≤ length arr)%nat → length (slice.write arr i data) = length arr.
Proof.
  intros Hi. unfold slice.write.
  rewrite !length_app, length_take, length_drop. lia.
Qed.

(** A write changes the positions it covers and no other. *)
Lemma write_lookup (arr : list byte) (i : nat) (data : list byte) (p : nat) :
  (i + length data ≤ length arr)%nat →
  slice.write arr i data !! p
  = if decide (i ≤ p < i + length data)%nat then data !! (p - i)%nat else arr !! p.
Proof.
  intros Hi. unfold slice.write.
  destruct (decide (p < i)%nat) as [Hp|Hp].
  - rewrite lookup_app_l by (rewrite length_take; lia).
    rewrite lookup_take_lt by done. case_decide; [lia|done].
  - rewrite lookup_app_r by (rewrite length_take; lia).
    rewrite length_take, Nat.min_l by lia.
    destruct (decide (p < i + length data)%nat) as [Hp'|Hp'].
    + rewrite lookup_app_l by lia. case_decide; [done|lia].
    + rewrite lookup_app_r by lia. rewrite lookup_drop.
      case_decide; [lia|]. f_equal. lia.
Qed.

Lemma agree_refl (leaf : slice.t) (mem : slice.Memory) : agree leaf mem mem.
Proof. split; [done|]. intros a arr Harr. by exists arr. Qed.

(** A slice without element in the spare capacity of [leaf] shows the
    same bytes in two stores that agree outside of it. *)
Lemma read_agree (leaf c : slice.t) (mem m : slice.Memory) :
  agree leaf mem m → in_bounds mem c → clear_of_spare leaf c →
  slice.read m c = slice.read mem c.
Proof.
  intros [_ Hagree] (arr & Harr & Hcap & Hlen)%in_bounds_inv Hclear.
  destruct (Hagree _ _ Harr) as (arr' & Harr' & _ & Hsame).
  apply list_eq. intros k. rewrite !read_lookup, Harr, Harr'. cbn.
  case_decide; [|done]. apply Hsame. unfold in_spare.
  destruct Hclear as [?|[?|[?|?]]]; lia.
Qed.

Section Slices.
Context `{slice.Runtime}.

(** One [append] to a slice grown from [leaf]: the result shows the
    elements of the slice followed by the appended ones, and the store
    changes at most in the spare capacity of [leaf]. *)
Lemma append_grows (leaf : slice.t) (mem m : slice.Memory) (s : slice.t) (data : list byte) :
  agree leaf mem m → in_bounds m s → grown_from leaf mem s →
  agree leaf mem (slice.append m s data).2
  ∧ in_bounds (slice.append m s data).2 (slice.append m s data).1
  ∧ grown_from leaf mem (slice.append m s data).1
  ∧ slice.read (slice.append m s data).2 (slice.append m s data).1
    = (slice.read m s ++ data)%list.
Proof.
  intros [Hlength Hagree] Hbounds Hgrown.
  pose proof (read_length m s Hbounds) as Hread.
  apply in_bounds_inv in Hbounds as (arr & Harr & Hcap & Hlen).
  unfold slice.append.
  destruct (Nat.leb_spec (slice.len s + length data) (slice.cap s)) as [Hfits|Hfull]; cbn.
  - split_and!.
    + split; [by rewrite length_alter|]. intros a arr0 Harr0.
      destruct (Hagree _ _ Harr0) as (arr' & Harr' & Hlen' & Hsame).
      destruct (decide (slice.array s = a)) as [<-|Hne].
      * rewrite Harr in Harr'. injection Harr' as <-.
        eexists. split; [by rewrite list_lookup_alter_eq, Harr|].
        split; [rewrite write_length; [done|lia]|].
        intros p Hp. rewrite write_lookup by lia. case_decide as Hin; [|by apply Hsame].
        exfalso. apply Hp. unfold in_spare.
        destruct Hgrown as [(? & ? & ?)|Hfresh]; [lia|].
        apply lookup_lt_Some in Harr0. lia.
      * exists arr'. by rewrite list_lookup_alter_ne.
    + unfold in_bounds. cbn. rewrite list_lookup_alter_eq, Harr. cbn.
      rewrite write_length by lia. lia.
    + destruct Hgrown as [(? & ? & ?)|Hfresh]; [left|right]; cbn; [lia|done].
    + apply list_eq. intros k. rewrite lookup_app, read_lookup, Harr, Hread.
      rewrite lookup_take, lookup_drop, list_lookup_alter_eq, Harr.
      cbn [default fmap option_fmap option_map id]. rewrite write_lookup by lia.
      destruct (decide (k < slice.len s)%nat).
      * rewrite decide_True by lia. rewrite decide_False by lia.
        destruct (arr !! (slice.offset s + k)%nat) eqn:Hk; [done|].
        apply lookup_ge_None in Hk. lia.
      * case_decide.
        -- rewrite decide_True by lia. f_equal. lia.
        -- symmetry. apply lookup_ge_None. lia.
  - set (n := (slice.len s + length data)%nat) in *.
    set (newcap := (n `max` slice.growcap (slice.cap s) n)%nat).
    split_and!.
    + split; [rewrite length_app; lia|]. intros a arr0 Harr0.
      destruct (Hagree _ _ Harr0) as (arr' & Harr' & Hlen' & Hsame).
      exists arr'. split; [|done]. rewrite lookup_app_l; [done|].
      by apply lookup_lt_Some in Harr'.
    + unfold in_bounds. cbn. rewrite list_lookup_middle by done.
      rewrite !length_app, Hread, length_replicate. lia.
    + right. cbn. lia.
    + unfold slice.read at 1. cbn [slice.array slice.offset slice.len fst snd].
      rewrite list_lookup_middle by done. cbn [default drop].
      rewrite app_assoc. apply take_app_length'.
      rewrite length_app, Hread. done.
Qed.

(** The loop from any slice grown from the leaf: it appends the raw bytes
    that the intermediates had before the call, in order, and changes the
    store at most in the spare capacity of the leaf. *)
Lemma certBytes_loop_from (leaf : slice.t) (mem : slice.Memory)
    (intermediates : list x509.Certificate) (s : slice.t) (m : slice.Memory) :
  Forall (λ c, in_bounds mem (x509.Raw c) ∧ clear_of_spare leaf (x509.Raw c)) intermediates →
  agree leaf mem m → in_bounds m s → grown_from leaf mem s →
  let out :=
    foldl (fun '(certBytes, mem) intermediate =>
             slice.append mem certBytes (slice.read mem (x509.Raw intermediate)))
          (s, m) intermediates in
  slice.read out.2 out.1
  = (slice.read m s ++ concat (map (λ c, slice.read mem (x509.Raw c)) intermediates))%list
  ∧ agree leaf mem out.2.
Proof.
  intros Hclear. revert s m.
  induction Hclear as [|c cs [Hc Hclear] _ IH]; intros s m Hagree Hbounds Hgrown; cbn.
  - by rewrite app_nil_r.
  - destruct (append_grows leaf mem m s (slice.read m (x509.Raw c)) Hagree Hbounds Hgrown)
      as (Hagree' & Hbounds' & Hgrown' & Hread).
    destruct (slice.append m s (slice.read m (x509.Raw c))) as [s' m'].
    destruct (IH s' m' Hagree' Hbounds' Hgrown') as [Hout Hagree''].
    split; [|done]. cbn in Hout. rewrite Hout. cbn in Hread. rewrite Hread.
    rewrite (read_agree leaf (x509.Raw c) mem m) by done.
    by rewrite <- app_assoc.
Qed.

(** When no intermediate lies in the spare capacity of the leaf, the
    loop leaves in [certBytes] the leaf's raw bytes followed by the raw
    bytes of the intermediates, in order. *)
Lemma certBytes_loop_concat (mem : slice.Memory)
    (leaf : x509.Certificate) (intermediates : list x509.Certificate) :
  chain_unaliased mem leaf intermediates →
  published_blob mem leaf intermediates = certificate_blob mem leaf intermediates.
Proof.
  intros [Hleaf Hclear]. unfold published_blob, certificate_blob, certBytes_loop. f_equal.
  apply (certBytes_loop_from (x509.Raw leaf) mem intermediates (x509.Raw leaf) mem);
    [done|apply agree_refl|done|].
  left. split_and!; [done|lia|lia].
Qed.

End Slices.

(** Filling a slice of the right length by index, front to back, yields the
    image of the list. *)
Lemma fill_by_index {A B : Type} (g : B → A) (z : A) (rest : list B) (filled : list A) :
  foldl (λ acc '(i, b), <[i := g b]> acc)
        (filled ++ replicate (length rest) z)%list
        (imap (λ i b, (length filled + i, b)%nat) rest)
  = (filled ++ map g rest)%list.
Proof.
  revert filled. induction rest as [|b rest IH]; intros filled; [done|].
  cbn [length replicate imap foldl map].
  rewrite Nat.add_0_r, insert_app_r_alt, Nat.sub_diag by done. cbn [insert list_insert].
  replace (filled ++ g b :: replicate (length rest) z)%list
    with ((filled ++ [g b]) ++ replicate (length rest) z)%list
    by (by rewrite <- app_assoc).
  replace (filled ++ g b :: map g rest)%list
    with ((filled ++ [g b]) ++ map g rest)%list
    by (by rewrite <- app_assoc).
  rewrite <- (IH (filled ++ [g b])%list). f_equal.
  apply imap_ext. intros i x _. cbn. rewrite length_app. cbn. f_equal. lia.
Qed.

Section Registry.
Context `{SamlDecls} `{!url.Lib} `{!slice.Runtime}.

(** The logout endpoints: one per configured binding, in order, each at
    the single-logout URL. *)
Lemma sloEndpoints_of_map (smp : ServiceMultipleProvider) :
  sloEndpoints_of smp
  = map (λ binding, {| Endpoint_Binding := binding;
                       Endpoint_Location := url.String_ (SloURL smp);
                       Endpoint_ResponseLocation := url.String_ (SloURL smp) |})
        (LogoutBindings smp).
Proof.
  unfold sloEndpoints_of.
  exact (fill_by_index _ Endpoint_zero (LogoutBindings smp) []).
Qed.

(** C4. The EntityDescriptor returned by Metadata has ValidUntil equal to
    now plus the registry's MetadataValidDuration when one is configured
    (the code's test: it is positive), and to now plus
    DefaultValidDuration otherwise. *)
Theorem Metadata_ValidUntil (now : Time) (smp : ServiceMultipleProvider) (mem : slice.Memory) :
  (0 < MetadataValidDuration smp →
     ValidUntil (Metadata now smp mem).1 = Time_Add now (MetadataValidDuration smp))
  ∧ (MetadataValidDuration smp ≤ 0 →
     ValidUntil (Metadata now smp mem).1 = Time_Add now DefaultValidDuration).
Proof.
  cbn. split; intros Hd.
  - by rewrite (proj2 (Z.ltb_lt _ _) Hd).
  - by rewrite (proj2 (Z.ltb_ge _ _) Hd).
Qed.

(** C5. The metadata document produced by Metadata has one
    service-provider role descriptor; it declares exactly two
    assertion-consumer endpoints, index 1 with the POST binding and
    index 2 with the Artifact binding, both at the assertion-consumer
    URL; its logout endpoints are one per configured logout binding, so
    their number is the number of bindings, and there is none when no
    binding is configured. *)
Theorem Metadata_endpoints (now : Time) (smp : ServiceMultipleProvider) (mem : slice.Memory) :
  ∃ sp,
    SPSSODescriptors (Metadata now smp mem).1 = [sp]
    ∧ AssertionConsumerServices sp =
        [ {| IndexedEndpoint_Binding := HTTPPostBinding;
             IndexedEndpoint_Location := url.String_ (AcsURL smp);
             IndexedEndpoint_Index := 1 |};
          {| IndexedEndpoint_Binding := HTTPArtifactBinding;
             IndexedEndpoint_Location := url.String_ (AcsURL smp);
             IndexedEndpoint_Index := 2 |} ]
    ∧ length (SingleLogoutServices (SPSSODescriptor_SSODescriptor sp))
      = length (LogoutBindings smp)
    ∧ map Endpoint_Binding (SingleLogoutServices (SPSSODescriptor_SSODescriptor sp))
      = LogoutBindings smp
    ∧ (LogoutBindings smp = [] →
       SingleLogoutServices (SPSSODescriptor_SSODescriptor sp) = []).
Proof.
  eexists. split; [reflexivity|]. cbn. rewrite sloEndpoints_of_map.
  split_and!; [done|by rewrite length_map| |by intros ->].
  rewrite map_map. cbn. apply map_id.
Qed.

(** The key descriptors Metadata builds, for the blob it publishes. *)
Lemma keyDescriptors_of_spec (smp : ServiceMultipleProvider) (mem : slice.Memory) :
  (keyDescriptors_of smp mem).1 =
  match Certificate smp with
  | None => []
  | Some leaf =>
      let blob := published_blob mem leaf (Intermediates smp) in
      {| Use := "encryption"; KeyDescriptor_KeyInfo := KeyInfo_of blob;
         EncryptionMethods := encryption_algorithms |}
      :: (if String.eqb (SignatureMethod smp) "" then []
          else [ {| Use := "signing"; KeyDescriptor_KeyInfo := KeyInfo_of blob;
                    EncryptionMethods := [] |} ])
  end.
Proof.
  unfold keyDescriptors_of, published_blob.
  destruct (Certificate smp) as [leaf|]; [|done].
  destruct (certBytes_loop leaf (Intermediates smp) mem) as [certBytes mem'].
  rewrite len_pos. by destruct (String.eqb (SignatureMethod smp) "").
Qed.


(** C7. The metadata produced by Metadata has AuthnRequestsSigned set,
    and true exactly when the signature method is non-empty, whatever
    the certificate is; WantAssertionsSigned is always set to true. *)
Theorem Metadata_flags (now : Time) (smp : ServiceMultipleProvider) (mem : slice.Memory) :
  ∃ sp signed,
    SPSSODescriptors (Metadata now smp mem).1 = [sp]
    ∧ AuthnRequestsSigned sp = Some signed
    ∧ (signed = true ↔ SignatureMethod smp ≠ "")
    ∧ WantAssertionsSigned sp = Some true.
Proof.
  eexists _, _. split; [reflexivity|]. cbn.
  split_and!; [done|apply len_pos_true|done].
Qed.

(** C8. For an entity identifier absent from the mapping,
    GetServiceProvider returns an error whose message contains the
    requested identifier, next to the zero ServiceProvider; for an
    identifier present, it returns the stored ServiceProvider and no
    error. *)
Theorem GetServiceProvider_lookup (smp : ServiceMultipleProvider) (entityID : string) :
  (Providers smp !! entityID = None →
     ∃ msg, GetServiceProvider smp entityID = (ServiceProvider_zero, Some msg)
            ∧ contains msg entityID)
  ∧ (∀ sp, Providers smp !! entityID = Some sp →
       GetServiceProvider smp entityID = (sp, None)).
Proof.
  unfold GetServiceProvider. split.
  - intros ->. eexists. split; [done|].
    exists "no service provider found for entityID ", "".
    by rewrite append_nil_r.
  - by intros sp ->.
Qed.

End Registry.

(** ** Query values and their encoding *)

Lemma append_assoc (a b c : string) : (a ++ b) ++ c = a ++ b ++ c.
Proof. induction a as [|x a IH]; [done|]. by rewrite !append_cons, IH. Qed.

Lemma Cut_after_shorter (s : string) (sep : ascii) :
  s ≠ "" → (String.length (url.Cut s sep).1.2 < String.length s)%nat.
Proof.
  induction s as [|c s IH]; [done|]. intros _. cbn.
  destruct (Ascii.eqb c sep); cbn; [lia|].
  destruct s as [|c' s']; [cbn; lia|].
  specialize (IH ltac:(done)).
  destruct (url.Cut (String c' s') sep) as [[before after] found].
  cbn in *. lia.
Qed.

(** The fuel of [parseQuery] is enough: more of it changes nothing. *)
Lemma parseQuery_fuel (n1 n2 : nat) (m : url.Values) (query : string) :
  (String.length query ≤ n1)%nat → (String.length query ≤ n2)%nat →
  url.parseQuery n1 m query = url.parseQuery n2 m query.
Proof.
  revert n2 m query. induction n1 as [|n1 IH]; intros [|n2] m query H1 H2.
  - done.
  - destruct query; [done|cbn in H1; lia].
  - destruct query; [done|cbn in H2; lia].
  - cbn [url.parseQuery].
    destruct (String.eqb_spec query "") as [|Hne]; [done|].
    pose proof (Cut_after_shorter query "&" Hne) as Hcut.
    destruct (url.Cut query "&") as [[key rest] found]. cbn in Hcut.
    repeat case_match; apply IH; lia.
Qed.

Lemma ParseQuery_fuel (n : nat) (query : string) :
  (String.length query ≤ n)%nat → url.parseQuery n ∅ query = url.ParseQuery query.
Proof. intros Hn. by apply parseQuery_fuel. Qed.

(** [Add] appends the value to the values of [key] and leaves the other
    keys as they are. *)
Lemma Values_Add_lookup (v : url.Values) (key value k : string) :
  url.Values_Add v key value !! k
  = if decide (key = k) then Some (default [] (v !! key) ++ [value])%list else v !! k.
Proof. unfold url.Values_Add. apply lookup_insert. Qed.

(** The keys that [Encode] walks through: every key of [v] once, in
    increasing order. *)
Lemma sorted_keys_sorted (v : url.Values) : StronglySorted String.le (url.sorted_keys v).
Proof. apply StronglySorted_merge_sort; apply _. Qed.

Lemma sorted_keys_Permutation (v : url.Values) :
  url.sorted_keys v ≡ₚ (map_to_list v).*1.
Proof. apply merge_sort_Permutation. Qed.

Lemma sorted_keys_elem_of (v : url.Values) (k : string) :
  k ∈ url.sorted_keys v ↔ is_Some (v !! k).
Proof.
  rewrite sorted_keys_Permutation, list_elem_of_fmap. split.
  - intros [[k' vs] [-> Hin%elem_of_map_to_list]]. by exists vs.
  - intros [vs Hvs]. exists (k, vs). by rewrite elem_of_map_to_list.
Qed.

Lemma sorted_keys_NoDup (v : url.Values) : NoDup (url.sorted_keys v).
Proof. rewrite sorted_keys_Permutation. apply NoDup_fst_map_to_list. Qed.

Lemma pair_nonempty (k x : string) : url.QueryEscape k ++ "=" ++ url.QueryEscape x ≠ "".
Proof. by destruct (url.QueryEscape k). Qed.

Lemma write_pair_first (pair : string) : write_pair "" pair = pair.
Proof. done. Qed.

Lemma write_pair_next (buf pair : string) :
  buf ≠ "" → write_pair buf pair = buf ++ "&" ++ pair.
Proof.
  intros Hbuf. unfold write_pair. rewrite len_pos.
  destruct buf; [done|]. cbn [String.eqb negb]. apply append_assoc.
Qed.

Lemma write_pair_nonempty (buf pair : string) : pair ≠ "" → write_pair buf pair ≠ "".
Proof.
  intros Hpair. destruct buf as [|c buf]; [by rewrite write_pair_first|].
  by rewrite write_pair_next, append_cons.
Qed.

(** Writing pairs to a non-empty buffer separates them with [&]. *)
Lemma write_pairs_concat (buf : string) (pairs : list string) :
  buf ≠ "" → Forall (λ p, p ≠ "") pairs →
  foldl write_pair buf pairs = String.concat "&" (buf :: pairs).
Proof.
  intros Hbuf Hpairs. revert buf Hbuf.
  induction Hpairs as [|p pairs Hp _ IH]; intros buf Hbuf; [done|].
  cbn [foldl]. rewrite IH by by apply write_pair_nonempty.
  rewrite write_pair_next by done.
  destruct pairs as [|p' pairs]; cbn [String.concat]; [done|].
  by rewrite !append_assoc.
Qed.

Lemma write_pairs_from_empty (pairs : list string) :
  Forall (λ p, p ≠ "") pairs → foldl write_pair "" pairs = String.concat "&" pairs.
Proof.
  destruct 1 as [|p pairs Hp Hpairs]; [done|].
  cbn [foldl]. rewrite write_pair_first. by apply write_pairs_concat.
Qed.

Lemma Encode_values_write (keyEscaped buf : string) (vs : list string) :
  url.Encode_values keyEscaped buf vs
  = foldl write_pair buf (map (λ x, keyEscaped ++ "=" ++ url.QueryEscape x) vs).
Proof. unfold url.Encode_values. symmetry. apply (foldl_fmap write_pair). Qed.

Lemma Encode_keys_write (v : url.Values) (ks : list string) (buf : string) :
  foldl (λ buf k, url.Encode_values (url.QueryEscape k) buf (default [] (v !! k))) buf ks
  = foldl write_pair buf (encoded_pairs v ks).
Proof.
  revert buf. induction ks as [|k ks IH]; intros buf; [done|].
  cbn [foldl encoded_pairs flat_map]. rewrite foldl_app, IH.
  by rewrite Encode_values_write.
Qed.

(** [Encode] writes the encoded pairs of the sorted keys, joined by [&]. *)
Lemma Encode_concat (v : url.Values) :
  url.Encode v = String.concat "&" (encoded_pairs v (url.sorted_keys v)).
Proof.
  unfold url.Encode. case_decide as Hsize.
  - apply map_size_empty_iff in Hsize as ->. done.
  - rewrite <- write_pairs_from_empty.
    + apply Encode_keys_write.
    + unfold encoded_pairs. apply Forall_flat_map, Forall_forall. intros k _.
      induction (default [] (v !! k)) as [|x xs IH]; constructor;
        [apply pair_nonempty|done].
Qed.

(** *** Parsing what [Encode] writes *)

(** Unescaping undoes escaping. *)
Lemma escaped_byte_roundtrip (c : ascii) (s : string) :
  url.QueryUnescape
    (String "%" (String (url.upperhex (N.shiftr (N_of_ascii c) 4))
                (String (url.upperhex (N.land (N_of_ascii c) 15)) s)))
  = String c <$> url.QueryUnescape s.
Proof.
  destruct c as [[] [] [] [] [] [] [] []]; cbn; by destruct (url.QueryUnescape s).
Qed.

Lemma plain_byte_roundtrip (c : ascii) (s : string) :
  url.shouldEscape c = false →
  url.QueryUnescape (String c s) = String c <$> url.QueryUnescape s.
Proof.
  destruct c as [[] [] [] [] [] [] [] []]; intros Hc; try discriminate Hc;
    cbn; by destruct (url.QueryUnescape s).
Qed.

Lemma QueryUnescape_QueryEscape (s : string) :
  url.QueryUnescape (url.QueryEscape s) = Some s.
Proof.
  induction s as [|c s IH]; [done|]. cbn [url.QueryEscape].
  destruct (Ascii.eqb_spec c " ") as [->|Hc].
  - cbn. by rewrite IH.
  - destruct (url.shouldEscape c) eqn:Hesc.
    + by rewrite escaped_byte_roundtrip, IH.
    + by rewrite plain_byte_roundtrip, IH.
Qed.

Lemma encoded_pairs_of (v : url.Values) (ks : list string) :
  encoded_pairs v ks = map encode_pair (pairs_of v ks).
Proof.
  unfold encoded_pairs, pairs_of.
  induction ks as [|k ks IH]; [done|].
  cbn [flat_map]. by rewrite map_app, map_map, IH.
Qed.

Lemma Values_Add_nonempty (v : url.Values) (k x : string) :
  nonempty_values v → nonempty_values (url.Values_Add v k x).
Proof.
  intros Hv k' vs. rewrite Values_Add_lookup. case_decide; [|apply Hv].
  intros [= <-]. by destruct (default [] (v !! k)).
Qed.

Lemma parseQuery_nonempty (fuel : nat) (m : url.Values) (query : string) :
  nonempty_values m → nonempty_values (url.parseQuery fuel m query).
Proof.
  revert m query. induction fuel as [|fuel IH]; intros m query Hm; [done|].
  cbn [url.parseQuery]. repeat case_match; auto using Values_Add_nonempty.
Qed.

Lemma Query_nonempty (u : url.URL) : nonempty_values (url.Query u).
Proof. apply parseQuery_nonempty. intros k vs. by rewrite lookup_empty. Qed.

(** The escaped text holds none of the separators of a query. *)
Lemma QueryEscape_no_separator (s : string) (sep : ascii) :
  sep = "&"%char ∨ sep = ";"%char ∨ sep = "="%char →
  url.Contains (url.QueryEscape s) sep = false.
Proof.
  intros Hsep. induction s as [|c s IH]; [done|].
  destruct c as [[] [] [] [] [] [] [] []];
    destruct Hsep as [->|[->| ->]]; cbn; exact IH.
Qed.

Lemma Contains_append (a b : string) (sep : ascii) :
  url.Contains (a ++ b) sep = url.Contains a sep || url.Contains b sep.
Proof.
  induction a as [|c a IH]; [done|].
  rewrite append_cons. cbn. by rewrite IH, orb_assoc.
Qed.

Lemma Cut_found (a b : string) (sep : ascii) :
  url.Contains a sep = false → url.Cut (a ++ String sep b) sep = (a, b, true).
Proof.
  induction a as [|c a IH]; cbn.
  - intros _. change ("" ++ String sep b) with (String sep b). cbn.
    by rewrite Ascii.eqb_refl.
  - intros [Hc Ha]%orb_false_iff. rewrite append_cons. cbn. by rewrite Hc, IH.
Qed.

Lemma Cut_not_found (a : string) (sep : ascii) :
  url.Contains a sep = false → url.Cut a sep = (a, "", false).
Proof.
  induction a as [|c a IH]; cbn; [done|].
  intros [Hc Ha]%orb_false_iff. by rewrite Hc, IH.
Qed.

Lemma encode_pair_no_separator (p : string * string) (sep : ascii) :
  sep = "&"%char ∨ sep = ";"%char →
  url.Contains (encode_pair p) sep = false.
Proof.
  intros Hsep. unfold encode_pair.
  rewrite !Contains_append, !QueryEscape_no_separator by tauto.
  by destruct Hsep as [->| ->].
Qed.

Lemma encode_pair_nonempty (p : string * string) : encode_pair p ≠ "".
Proof. apply pair_nonempty. Qed.

Lemma Cut_encode_pair (p : string * string) :
  url.Cut (encode_pair p) "=" = (url.QueryEscape p.1, url.QueryEscape p.2, true).
Proof. apply Cut_found, QueryEscape_no_separator. tauto. Qed.

Lemma concat_cons_cons (sep a b : string) (rest : list string) :
  String.concat sep (a :: b :: rest) = a ++ sep ++ String.concat sep (b :: rest).
Proof. reflexivity. Qed.

Lemma Cut_concat (a : string) (rest : list string) :
  url.Contains a "&" = false →
  (url.Cut (String.concat "&" (a :: rest)) "&").1 = (a, String.concat "&" rest).
Proof.
  intros Ha. destruct rest as [|b rest].
  - cbn [String.concat]. by rewrite Cut_not_found.
  - rewrite concat_cons_cons, (append_cons "&" ""), Cut_found by done. done.
Qed.

Lemma parseQuery_encoded (pairs : list (string * string)) (m : url.Values) (fuel : nat) :
  (String.length (String.concat "&" (map encode_pair pairs)) ≤ fuel)%nat →
  url.parseQuery fuel m (String.concat "&" (map encode_pair pairs))
  = foldl add_pair m pairs.
Proof.
  revert m fuel. induction pairs as [|p pairs IH]; intros m fuel Hfuel.
  - by destruct fuel.
  - cbn [map] in *.
    pose proof (Cut_concat (encode_pair p) (map encode_pair pairs)
                  (encode_pair_no_separator p "&" ltac:(tauto))) as Hcut.
    assert (Hquery : String.concat "&" (encode_pair p :: map encode_pair pairs) ≠ "").
    { destruct (map encode_pair pairs); cbn [String.concat].
      - apply encode_pair_nonempty.
      - pose proof (encode_pair_nonempty p). by destruct (encode_pair p). }
    revert Hfuel Hcut Hquery.
    generalize (String.concat "&" (encode_pair p :: map encode_pair pairs)) as query.
    intros query Hfuel Hcut Hquery.
    pose proof (Cut_after_shorter query "&" Hquery) as Hshorter.
    destruct fuel as [|fuel]; [destruct query; [done|cbn in Hfuel; lia]|].
    cbn [url.parseQuery]. rewrite (proj2 (String.eqb_neq _ _) Hquery).
    destruct (url.Cut query "&") as [[key rest] found].
    cbn in Hcut, Hshorter. injection Hcut as -> ->.
    rewrite encode_pair_no_separator by tauto.
    rewrite (proj2 (String.eqb_neq _ _) (encode_pair_nonempty p)).
    rewrite Cut_encode_pair, !QueryUnescape_QueryEscape.
    cbn [foldl]. apply IH. lia.
Qed.

Lemma foldl_add_values (m : url.Values) (k : string) (vs : list string) :
  vs ≠ [] →
  foldl add_pair m (map (pair k) vs) = <[k := (default [] (m !! k) ++ vs)%list]> m.
Proof.
  revert m. induction vs as [|x vs IH]; intros m Hvs; [done|].
  cbn [map foldl]. destruct vs as [|y vs]; [done|].
  rewrite IH by done. unfold add_pair at 1 2, url.Values_Add. cbn [fst snd].
  rewrite lookup_insert_eq, insert_insert_eq. cbn [default id].
  by rewrite <- app_assoc.
Qed.

Lemma foldl_pairs_lookup (v : url.Values) (ks : list string) (m : url.Values) (k' : string) :
  NoDup ks →
  (∀ k, k ∈ ks → m !! k = None ∧ ∃ vs, v !! k = Some vs ∧ vs ≠ []) →
  foldl add_pair m (pairs_of v ks) !! k'
  = if decide (k' ∈ ks) then v !! k' else m !! k'.
Proof.
  intros Hnodup. revert m. induction Hnodup as [|k ks Hk Hnodup IH]; intros m Hks.
  - by rewrite decide_False by apply not_elem_of_nil.
  - unfold pairs_of. cbn [flat_map]. fold (pairs_of v ks). rewrite foldl_app.
    destruct (Hks k ltac:(left)) as (Hm & vs & Hv & Hvs).
    rewrite Hv. cbn [default]. rewrite foldl_add_values, Hm by done. cbn [default app].
    rewrite IH.
    + destruct (decide (k' = k)) as [->|Hne].
      * rewrite decide_False by done. rewrite decide_True by left.
        by rewrite lookup_insert_eq.
      * rewrite lookup_insert_ne by done.
        destruct (decide (k' ∈ ks)).
        -- by rewrite decide_True by by right.
        -- rewrite decide_False; [done|]. by intros [?|?]%elem_of_cons.
    + intros k2 Hk2. destruct (Hks k2 ltac:(by right)) as [Hm2 Hv2].
      split; [|done]. rewrite lookup_insert_ne; [done|]. by intros ->.
Qed.

(** Parsing what [Encode] writes gives the values back. *)
Lemma ParseQuery_Encode (v : url.Values) :
  nonempty_values v → url.ParseQuery (url.Encode v) = v.
Proof.
  intros Hv. rewrite Encode_concat, encoded_pairs_of.
  unfold url.ParseQuery. rewrite parseQuery_encoded by done.
  apply map_eq. intros k.
  rewrite foldl_pairs_lookup.
  - case_decide as Hk; [done|]. rewrite lookup_empty.
    rewrite sorted_keys_elem_of in Hk. symmetry. by apply eq_None_not_Some.
  - apply sorted_keys_NoDup.
  - intros k' [vs Hvs]%sorted_keys_elem_of. split; [apply lookup_empty|].
    exists vs. split; [done|]. by apply (Hv k').
Qed.

(** ** The discovery redirector *)

Lemma ParseQuery_empty : url.ParseQuery "" = ∅.
Proof. done. Qed.

(** Adding [return] and then [entityID] to no parameters at all encodes as
    [entityID], then [return]. *)
Lemma Encode_entityID_return (back entityID : string) :
  url.Encode (url.Values_Add (url.Values_Add ∅ "return" back) "entityID" entityID)
  = "entityID=" ++ url.QueryEscape entityID ++ "&return=" ++ url.QueryEscape back.
Proof.
  rewrite Encode_concat.
  assert (url.sorted_keys (url.Values_Add (url.Values_Add ∅ "return" back) "entityID" entityID)
          = ["entityID"; "return"]) as -> by by vm_compute.
  unfold encoded_pairs. cbn [flat_map].
  rewrite !Values_Add_lookup. by repeat case_decide.
Qed.

(** Adding [rs] to no parameters at all encodes as that one pair. *)
Lemma Encode_rs (relayState : string) :
  url.Encode (url.Values_Add ∅ "rs" relayState) = "rs=" ++ url.QueryEscape relayState.
Proof.
  rewrite Encode_concat.
  assert (url.sorted_keys (url.Values_Add ∅ "rs" relayState) = ["rs"]) as -> by by vm_compute.
  unfold encoded_pairs. cbn [flat_map].
  rewrite !Values_Add_lookup. by case_decide.
Qed.

Section Redirector.
Context `{SamlDecls} `{!url.Lib}.

(** Setting the query leaves the rest of the URL as it is. *)
Lemma set_RawQuery_restore (q : string) (u : url.URL) :
  url.set_RawQuery (url.RawQuery u) (url.set_RawQuery q u) = u.
Proof. by destruct u. Qed.

Lemma set_RawQuery_inv (q : string) (u w : url.URL) :
  url.set_RawQuery q u = w → u = url.set_RawQuery (url.RawQuery u) w.
Proof. intros <-. by destruct u. Qed.

(** The parameters of a URL whose query has been set to the encoding of
    values. *)
Lemma Query_set_Encode (v : url.Values) (u : url.URL) :
  nonempty_values v → url.Query (url.set_RawQuery (url.Encode v) u) = v.
Proof. intros Hv. unfold url.Query. cbn. by apply ParseQuery_Encode. Qed.

(** C9. For a return URL that parses and a registry whose
    identity-provider metadata is present: when the metadata's name field
    is absent, MakeWayfRedirectionRequest fails with the ConfigError
    [identity_name_not_set]; when it holds a discovery base URL, an error
    of parsing the base is returned as it is, and otherwise the result is
    the base URL, changed in its query only, whose parameters are those of
    the base augmented with exactly two: [return], carrying the return URL
    augmented with the parameter [rs] that holds the relay state, and
    [entityID], carrying the tenant's entity identifier. The query lists
    the pairs by increasing key, each key once; for a base without query
    it is [entityID=...&return=...], and for a return URL without query
    the augmented return URL has the query [rs=...]. *)
Theorem MakeWayfRedirectionRequest_redirect
    (smp : ServiceMultipleProvider) (relayState returnUrl : string)
    (u : url.URL) (idp : EntitiesDescriptor) :
  url.Parse returnUrl = Ok u →
  IDPMetadata smp = Some idp →
  ∃ back,
    url.set_RawQuery (url.RawQuery u) back = u
    ∧ url.Query back = url.Values_Add (url.Query u) "rs" relayState
    ∧ url.Query back !! "rs"
      = Some (default [] (url.Query u !! "rs") ++ [relayState])%list
    ∧ (∀ k, k ≠ "rs" → url.Query back !! k = url.Query u !! k)
    ∧ (url.RawQuery u = "" → url.RawQuery back = "rs=" ++ url.QueryEscape relayState)
    ∧ match Name idp with
      | None =>
          MakeWayfRedirectionRequest smp relayState returnUrl
          = Returns (Err identity_name_not_set)
      | Some wayfUrl =>
          match url.Parse wayfUrl with
          | Err err =>
              MakeWayfRedirectionRequest smp relayState returnUrl = Returns (Err err)
          | Ok wu =>
              ∃ redirect,
                MakeWayfRedirectionRequest smp relayState returnUrl
                = Returns (Ok redirect)
                ∧ url.set_RawQuery (url.RawQuery wu) redirect = wu
                ∧ url.Query redirect
                  = url.Values_Add
                      (url.Values_Add (url.Query wu) "return" (url.String_ back))
                      "entityID" (SMP_EntityID smp)
                ∧ url.Query redirect !! "entityID"
                  = Some (default [] (url.Query wu !! "entityID") ++ [SMP_EntityID smp])%list
                ∧ url.Query redirect !! "return"
                  = Some (default [] (url.Query wu !! "return") ++ [url.String_ back])%list
                ∧ (∀ k, k ≠ "entityID" → k ≠ "return" →
                        url.Query redirect !! k = url.Query wu !! k)
                ∧ url.RawQuery redirect
                  = String.concat "&"
                      (encoded_pairs (url.Query redirect)
                                     (url.sorted_keys (url.Query redirect)))
                ∧ StronglySorted String.le (url.sorted_keys (url.Query redirect))
                ∧ NoDup (url.sorted_keys (url.Query redirect))
                ∧ (url.RawQuery wu = "" →
                   url.RawQuery redirect
                   = "entityID=" ++ url.QueryEscape (SMP_EntityID smp)
                     ++ "&return=" ++ url.QueryEscape (url.String_ back))
          end
      end.
Proof.
  intros Hu Hidp.
  set (rs := url.Values_Add (url.Query u) "rs" relayState).
  assert (Hrs : nonempty_values rs) by apply Values_Add_nonempty, Query_nonempty.
  exists (url.set_RawQuery (url.Encode rs) u).
  rewrite Query_set_Encode by done. split_and!.
  - apply set_RawQuery_restore.
  - done.
  - unfold rs. rewrite Values_Add_lookup. by case_decide.
  - intros k Hk. unfold rs. rewrite Values_Add_lookup. by case_decide.
  - intros Hq. cbn. unfold rs, url.Query. rewrite Hq, ParseQuery_empty. apply Encode_rs.
  - unfold MakeWayfRedirectionRequest. rewrite Hu, Hidp. fold rs.
    destruct (Name idp) as [wayfUrl|]; [|done].
    destruct (url.Parse wayfUrl) as [wu|err]; [|done].
    set (back := url.set_RawQuery (url.Encode rs) u).
    set (query := url.Values_Add (url.Values_Add (url.Query wu) "return" (url.String_ back))
                                 "entityID" (SMP_EntityID smp)).
    assert (Hquery : nonempty_values query)
      by (do 2 apply Values_Add_nonempty; apply Query_nonempty).
    exists (url.set_RawQuery (url.Encode query) wu).
    rewrite Query_set_Encode by done. split_and!.
    + done.
    + apply set_RawQuery_restore.
    + done.
    + unfold query. rewrite !Values_Add_lookup. by repeat case_decide.
    + unfold query. rewrite !Values_Add_lookup. by repeat case_decide.
    + intros k Hk1 Hk2. unfold query. rewrite !Values_Add_lookup. by repeat case_decide.
    + apply Encode_concat.
    + apply sorted_keys_sorted.
    + apply sorted_keys_NoDup.
    + intros Hq. cbn. unfold query, url.Query. rewrite Hq, ParseQuery_empty.
      apply Encode_entityID_return.
Qed.

(** C10. MakeWayfRedirectionRequest reads the name field through
    IDPMetadata before it tests the name: with IDPMetadata nil and a
    return URL that parses, the call panics with a nil pointer
    dereference and the ConfigError branch is not reached; with
    IDPMetadata present the call always returns, and it returns the
    ConfigError exactly for an absent name field (the return URL
    parsing). *)
Theorem MakeWayfRedirectionRequest_nil_IDPMetadata
    (smp : ServiceMultipleProvider) (relayState returnUrl : string) :
  (∀ u, url.Parse returnUrl = Ok u → IDPMetadata smp = None →
        MakeWayfRedirectionRequest smp relayState returnUrl = Panics nil_dereference)
  ∧ (∀ idp, IDPMetadata smp = Some idp →
        ∃ r, MakeWayfRedirectionRequest smp relayState returnUrl = Returns r)
  ∧ (∀ u idp, url.Parse returnUrl = Ok u → IDPMetadata smp = Some idp →
        Name idp = None →
        MakeWayfRedirectionRequest smp relayState returnUrl
        = Returns (Err identity_name_not_set)).
Proof.
  unfold MakeWayfRedirectionRequest. split_and!.
  - by intros u -> ->.
  - intros idp ->. destruct (url.Parse returnUrl); [|by eexists].
    destruct (Name idp) as [wayfUrl|]; [|by eexists].
    destruct (url.Parse wayfUrl); by eexists.
  - by intros u idp -> -> ->.
Qed.

End Redirector.

(** * The properties on the concrete environment *)
Section Samples.
#[local] Existing Instance Sample.decls.
#[local] Existing Instance Sample.urls.
#[local] Existing Instance Sample.xml.
#[local] Existing Instance Sample.https.
#[local] Existing Instance Sample.runtime.

(** The document with the entities A, B and C passes validation, fails
    to decode as one EntityDescriptor with the root mismatch, and
    ParseMetadata returns B. *)
Lemma ParseMetadata_fallback_witness :
  xrv_Validate Sample.doc_entities = None
  ∧ (xml_Unmarshal_EntityDescriptor Sample.doc_entities EntityDescriptor_zero).2
    = Some expected_EntityDescriptor
  ∧ ParseMetadata Sample.doc_entities = Ok (Sample.idp_entity "B").
Proof.
  assert (Hvalid : xrv_Validate Sample.doc_entities = None) by (vm_compute; reflexivity).
  assert (Hroot : (xml_Unmarshal_EntityDescriptor Sample.doc_entities EntityDescriptor_zero).2
                  = Some expected_EntityDescriptor) by (vm_compute; reflexivity).
  split; [exact Hvalid|]. split; [exact Hroot|].
  pose proof (ParseMetadata_fallback Sample.doc_entities Hvalid Hroot) as Hthm.
  assert (Hdec : xml_Unmarshal_EntitiesDescriptor Sample.doc_entities EntitiesDescriptor_zero
                 = (Sample.entities_ABC, None)) by (vm_compute; reflexivity).
  rewrite Hdec in Hthm. destruct Hthm as (Hfirst & _ & _).
  apply Hfirst. exists [Sample.plain_entity "A"], [Sample.idp_entity "C"].
  split; [reflexivity|]. split.
  - constructor; [|constructor]. intros Hno. apply Hno. reflexivity.
  - discriminate.
Defined.

(** The standalone EntityDescriptor document B is wrapped. *)
Lemma ParseEntitiesMetadata_wraps_witness :
  ∃ entities,
    ParseEntitiesMetadata Sample.doc_entity = Ok entities
    ∧ EntityDescriptors entities = [Sample.idp_entity "B"].
Proof.
  apply (ParseEntitiesMetadata_wraps Sample.doc_entity (Sample.idp_entity "B"));
    vm_compute; reflexivity.
Defined.

(** A 404 response with a well-formed body. *)
Lemma fetchMetadata_status_error_witness :
  (FetchEntityMetatada tt (λ _, Ok Sample.not_found_page) Sample.metadata_endpoint).1
  = Err "failed to fetch metadata: unexpected status code 404".
Proof.
  pose proof (fetchMetadata_status_error tt (λ _, Ok Sample.not_found_page)
                Sample.metadata_endpoint "https://idp.example/metadata"
                Sample.not_found_page) as Hthm.
  assert (Hreq : http.NewRequest "GET" (url.String_ Sample.metadata_endpoint)
                 = Ok "https://idp.example/metadata") by (vm_compute; reflexivity).
  assert (Hcode : 400 ≤ http.StatusCode Sample.not_found_page) by (vm_compute; discriminate).
  destruct (Hthm Hreq eq_refl Hcode) as (_ & _ & Hentity & _).
  exact Hentity.
Defined.

(** A validity of one hour is used; a validity of zero gives the
    default of two days. *)
Lemma Metadata_ValidUntil_witness :
  ValidUntil (Metadata Sample.noon Sample.signing_tenant Sample.memory).1
  = 1000 + 3600000000000
  ∧ ValidUntil (Metadata Sample.noon (Sample.tenant None) Sample.memory).1
    = 1000 + 172800000000000.
Proof.
  split.
  - apply (proj1 (Metadata_ValidUntil Sample.noon Sample.signing_tenant Sample.memory)).
    vm_compute. reflexivity.
  - apply (proj2 (Metadata_ValidUntil Sample.noon (Sample.tenant None) Sample.memory)).
    vm_compute. discriminate.
Defined.

(** No logout binding: no logout endpoint, and still two
    assertion-consumer endpoints. *)
Lemma Metadata_endpoints_witness :
  ∃ sp,
    SPSSODescriptors (Metadata Sample.noon (Sample.tenant None) Sample.memory).1 = [sp]
    ∧ map IndexedEndpoint_Index (AssertionConsumerServices sp) = [1; 2]
    ∧ SingleLogoutServices (SPSSODescriptor_SSODescriptor sp) = [].
Proof.
  destruct (Metadata_endpoints Sample.noon (Sample.tenant None) Sample.memory)
    as (sp & Hsp & Hacs & _ & _ & Hslo).
  exists sp. split; [exact Hsp|]. split.
  - rewrite Hacs. reflexivity.
  - apply Hslo. reflexivity.
Defined.



(** With the signature method set the flag is true. *)
Lemma Metadata_flags_witness :
  ∃ sp,
    SPSSODescriptors (Metadata Sample.noon Sample.signing_tenant Sample.memory).1 = [sp]
    ∧ AuthnRequestsSigned sp = Some true
    ∧ WantAssertionsSigned sp = Some true.
Proof.
  destruct (Metadata_flags Sample.noon Sample.signing_tenant Sample.memory)
    as (sp & signed & Hsp & Hflag & Hiff & Hwant).
  exists sp. split; [exact Hsp|]. split; [|exact Hwant].
  rewrite Hflag. f_equal. apply Hiff. discriminate.
Defined.

(** [urn:x] is not registered; [urn:a] is. *)
Lemma GetServiceProvider_lookup_witness :
  (∃ msg, GetServiceProvider (Sample.tenant None) "urn:x" = ("", Some msg)
          ∧ contains msg "urn:x")
  ∧ GetServiceProvider (Sample.tenant None) "urn:a" = ("provider a", None).
Proof.
  split.
  - apply (proj1 (GetServiceProvider_lookup (Sample.tenant None) "urn:x")).
    vm_compute. reflexivity.
  - apply (proj2 (GetServiceProvider_lookup (Sample.tenant None) "urn:a")).
    vm_compute. reflexivity.
Defined.

(** The specification's example: relay state [abc], return URL
    [https://sp.example/cb], discovery base [https://idp.example/wayf]. *)
Lemma MakeWayfRedirectionRequest_redirect_witness :
  ∃ redirect,
    MakeWayfRedirectionRequest (Sample.tenant (Some Sample.entities_ABC))
      "abc" "https://sp.example/cb" = Returns (Ok redirect)
    ∧ url.RawQuery redirect
      = "entityID=https%3A%2F%2Fsp.example%2Fsaml&return=https%3A%2F%2Fsp.example%2Fcb%3Frs%3Dabc"
    ∧ url.String_ redirect
      = "https://idp.example/wayf?entityID=https%3A%2F%2Fsp.example%2Fsaml&return=https%3A%2F%2Fsp.example%2Fcb%3Frs%3Dabc".
Proof.
  assert (Hu : url.Parse "https://sp.example/cb" = Ok (Sample.sp_endpoint "/cb"))
    by (vm_compute; reflexivity).
  destruct (MakeWayfRedirectionRequest_redirect
              (Sample.tenant (Some Sample.entities_ABC)) "abc" "https://sp.example/cb"
              (Sample.sp_endpoint "/cb") Sample.entities_ABC Hu eq_refl)
    as (back & Hback & _ & _ & _ & Hrs & Hmatch).
  assert (Hname : Name Sample.entities_ABC = Some "https://idp.example/wayf")
    by reflexivity.
  rewrite Hname in Hmatch.
  assert (Hwu : url.Parse "https://idp.example/wayf" = Ok (Sample.idp_endpoint "/wayf"))
    by (vm_compute; reflexivity).
  rewrite Hwu in Hmatch.
  destruct Hmatch as (redirect & Hresult & Hbase & _ & _ & _ & _ & _ & _ & _ & Hplain).
  specialize (Hplain eq_refl). specialize (Hrs eq_refl).
  apply set_RawQuery_inv in Hback, Hbase. rewrite Hrs in Hback.
  rewrite Hback in Hplain.
  exists redirect. split; [exact Hresult|].
  rewrite Hbase, Hplain. split; vm_compute; reflexivity.
Defined.

(** A discovery base that has parameters of its own keeps them: the
    two parameters are added and all are encoded by increasing key. *)
Example MakeWayfRedirectionRequest_base_with_query :
  ∃ wu,
    MakeWayfRedirectionRequest
      (Sample.tenant (Some {| Name := Some "https://idp.example/wayf?x=1&a=2";
                              EntityDescriptors := [] |}))
      "a b" "https://sp.example/cb?z=1" = Returns (Ok wu)
    ∧ url.String_ wu
      = "https://idp.example/wayf?a=2&entityID=https%3A%2F%2Fsp.example%2Fsaml&return=https%3A%2F%2Fsp.example%2Fcb%3Frs%3Da%2Bb%26z%3D1&x=1".
Proof. eexists. split; vm_compute; reflexivity. Qed.

(** Without identity-provider metadata the call panics; with metadata
    that has no name it returns the ConfigError. *)
Lemma MakeWayfRedirectionRequest_nil_IDPMetadata_witness :
  MakeWayfRedirectionRequest (Sample.tenant None) "abc" "https://sp.example/cb"
  = Panics nil_dereference
  ∧ MakeWayfRedirectionRequest (Sample.tenant (Some EntitiesDescriptor_zero))
      "abc" "https://sp.example/cb"
    = Returns (Err identity_name_not_set).
Proof.
  assert (Hu : url.Parse "https://sp.example/cb" = Ok (Sample.sp_endpoint "/cb"))
    by (vm_compute; reflexivity).
  split.
  - destruct (MakeWayfRedirectionRequest_nil_IDPMetadata
                (Sample.tenant None) "abc" "https://sp.example/cb") as (Hnil & _ & _).
    exact (Hnil _ Hu eq_refl).
  - destruct (MakeWayfRedirectionRequest_nil_IDPMetadata
                (Sample.tenant (Some EntitiesDescriptor_zero))
                "abc" "https://sp.example/cb") as (_ & _ & Hname).
    exact (Hname _ _ Hu eq_refl eq_refl).
Defined.

End Samples.


(** * Further properties of the parser *)
Section ParserMore.
Context `{XmlLib}.

Lemma range_IDPSSO_Ok_inv (es : list EntityDescriptor) (e : EntityDescriptor) :
  range_IDPSSO es = Ok e → first_with_IDPSSO es e.
Proof.
  intros Hrange.
  destruct (first_with_IDPSSO_or_none es) as [[e' He']|Hnone].
  - rewrite (range_IDPSSO_first es e' He') in Hrange. by injection Hrange as ->.
  - by rewrite (range_IDPSSO_none es Hnone) in Hrange.
Qed.

Lemma error_is_true (err : option error) (msg : string) :
  error_is err msg = true ↔ err = Some msg.
Proof.
  destruct err as [e|]; cbn; [|done].
  rewrite String.eqb_eq. split; [by intros ->|by intros [= ->]].
Qed.

(** How ParseMetadata comes to a result. *)
Lemma ParseMetadata_cases (data : list byte) (e : EntityDescriptor) :
  ParseMetadata data = Ok e →
  xrv_Validate data = None
  ∧ (xml_Unmarshal_EntityDescriptor data EntityDescriptor_zero = (e, None)
     ∨ ((xml_Unmarshal_EntityDescriptor data EntityDescriptor_zero).2
          = Some expected_EntityDescriptor
        ∧ ∃ entities,
            xml_Unmarshal_EntitiesDescriptor data EntitiesDescriptor_zero = (entities, None)
            ∧ first_with_IDPSSO (EntityDescriptors entities) e)).
Proof.
  unfold ParseMetadata.
  destruct (xrv_Validate data); [done|].
  destruct (xml_Unmarshal_EntityDescriptor data EntityDescriptor_zero) as [entity err].
  destruct (error_is err expected_EntityDescriptor) eqn:Herr.
  - apply error_is_true in Herr as ->.
    destruct (xml_Unmarshal_EntitiesDescriptor data EntitiesDescriptor_zero)
      as [entities [err|]]; [done|].
    intros Hrange%range_IDPSSO_Ok_inv. split; [done|]. right. split; [done|].
    by exists entities.
  - destruct err; [done|]. intros [= ->]. split; [done|]. by left.
Qed.

Lemma ParseEntitiesMetadata_cases (data : list byte) (entities : EntitiesDescriptor) :
  ParseEntitiesMetadata data = Ok entities →
  xrv_Validate data = None
  ∧ (xml_Unmarshal_EntitiesDescriptor data EntitiesDescriptor_zero = (entities, None)
     ∨ ∃ failed entity,
         xml_Unmarshal_EntitiesDescriptor data EntitiesDescriptor_zero
           = (failed, Some expected_EntitiesDescriptor)
         ∧ xml_Unmarshal_EntityDescriptor data EntityDescriptor_zero = (entity, None)
         ∧ entities = set_EntityDescriptors [entity] failed).
Proof.
  unfold ParseEntitiesMetadata.
  destruct (xrv_Validate data); [done|].
  destruct (xml_Unmarshal_EntitiesDescriptor data EntitiesDescriptor_zero) as [failed err].
  destruct (error_is err expected_EntitiesDescriptor) eqn:Herr.
  - apply error_is_true in Herr as ->.
    destruct (xml_Unmarshal_EntityDescriptor data EntityDescriptor_zero)
      as [entity [err|]]; [done|].
    intros [= <-]. split; [done|]. right. by exists failed, entity.
  - destruct err; [done|]. intros [= ->]. split; [done|]. by left.
Qed.

(** X1. Whenever ParseMetadata returns an entity, the document passed
    validation, and the entity is either what the document decodes to as a
    single EntityDescriptor, or - the first decoding having failed with the
    root-element mismatch - the first entity with an IDP role descriptor of
    what it decodes to as an EntitiesDescriptor. Nothing else is ever
    returned. *)
Theorem ParseMetadata_Ok_inv (data : list byte) (e : EntityDescriptor) :
  ParseMetadata data = Ok e →
  xrv_Validate data = None
  ∧ (xml_Unmarshal_EntityDescriptor data EntityDescriptor_zero = (e, None)
     ∨ ((xml_Unmarshal_EntityDescriptor data EntityDescriptor_zero).2
          = Some expected_EntityDescriptor
        ∧ ∃ entities,
            xml_Unmarshal_EntitiesDescriptor data EntitiesDescriptor_zero = (entities, None)
            ∧ e ∈ EntityDescriptors entities
            ∧ has_IDPSSO e
            ∧ first_with_IDPSSO (EntityDescriptors entities) e)).
Proof.
  intros [Hvalid [Hdirect|[Hroot (entities & Hdec & Hfirst)]]]%ParseMetadata_cases.
  - split; [done|]. by left.
  - split; [done|]. right. split; [done|]. exists entities.
    destruct Hfirst as (before & after & Hes & Hbefore & He).
    split_and!; [done| |done|by exists before, after].
    rewrite Hes. apply elem_of_app. right. left.
Qed.

(** X2. Whenever ParseEntitiesMetadata returns a document, the input passed
    validation, and the document is either what the input decodes to as an
    EntitiesDescriptor, or - that decoding having failed with the
    root-element mismatch - the target of the failed decoding with its
    entity list replaced by the one entity the input decodes to; the other
    fields, such as the name, are those the failed decoding left. *)
Theorem ParseEntitiesMetadata_Ok_inv (data : list byte) (entities : EntitiesDescriptor) :
  ParseEntitiesMetadata data = Ok entities →
  xrv_Validate data = None
  ∧ (xml_Unmarshal_EntitiesDescriptor data EntitiesDescriptor_zero = (entities, None)
     ∨ ∃ failed entity,
         xml_Unmarshal_EntitiesDescriptor data EntitiesDescriptor_zero
           = (failed, Some expected_EntitiesDescriptor)
         ∧ xml_Unmarshal_EntityDescriptor data EntityDescriptor_zero = (entity, None)
         ∧ EntityDescriptors entities = [entity]
         ∧ Name entities = Name failed).
Proof.
  intros [Hvalid [Hdirect|(failed & entity & Hfail & Hentity & ->)]]%ParseEntitiesMetadata_cases.
  - split; [done|]. by left.
  - split; [done|]. right. by exists failed, entity.
Qed.

(** X3. The two shapes are not treated alike. A document that decodes as a
    single EntityDescriptor is returned by ParseMetadata as it is, with or
    without IDP role descriptor; the same entity as the sole member of an
    EntitiesDescriptor is returned only if it has an IDP role descriptor,
    and is refused with the NotFound error otherwise. *)
Theorem ParseMetadata_shapes
    (single wrapped : list byte) (e : EntityDescriptor) (entities : EntitiesDescriptor) :
  xrv_Validate single = None →
  xml_Unmarshal_EntityDescriptor single EntityDescriptor_zero = (e, None) →
  xrv_Validate wrapped = None →
  (xml_Unmarshal_EntityDescriptor wrapped EntityDescriptor_zero).2
    = Some expected_EntityDescriptor →
  xml_Unmarshal_EntitiesDescriptor wrapped EntitiesDescriptor_zero = (entities, None) →
  EntityDescriptors entities = [e] →
  ParseMetadata single = Ok e
  ∧ (has_IDPSSO e → ParseMetadata wrapped = Ok e)
  ∧ (¬ has_IDPSSO e → ParseMetadata wrapped = Err no_entity_found).
Proof.
  intros Hv1 Hsingle Hv2 Hroot Hwrapped Hes. split_and!.
  - unfold ParseMetadata. by rewrite Hv1, Hsingle.
  - intros He. unfold ParseMetadata. rewrite Hv2.
    destruct (xml_Unmarshal_EntityDescriptor wrapped EntityDescriptor_zero) as [x err].
    cbn in Hroot. subst err. unfold error_is. rewrite String.eqb_refl, Hwrapped, Hes.
    apply range_IDPSSO_first. exists [], []. by split_and!.
  - intros He. unfold ParseMetadata. rewrite Hv2.
    destruct (xml_Unmarshal_EntityDescriptor wrapped EntityDescriptor_zero) as [x err].
    cbn in Hroot. subst err. unfold error_is. rewrite String.eqb_refl, Hwrapped, Hes.
    apply range_IDPSSO_none. by repeat constructor.
Qed.

(** X4. The two parsers agree. On a decoder for which no input decodes both
    as an EntityDescriptor and as an EntitiesDescriptor (a document has one
    root element), whenever ParseMetadata returns an entity and
    ParseEntitiesMetadata returns a document for the same input, the entity
    is a member of the document's entity list. *)
Theorem parsers_agree
    (data : list byte) (e : EntityDescriptor) (entities : EntitiesDescriptor) :
  ¬ ((xml_Unmarshal_EntityDescriptor data EntityDescriptor_zero).2 = None
     ∧ (xml_Unmarshal_EntitiesDescriptor data EntitiesDescriptor_zero).2 = None) →
  ParseMetadata data = Ok e →
  ParseEntitiesMetadata data = Ok entities →
  e ∈ EntityDescriptors entities.
Proof.
  intros Hroot
    [_ [Hdirect|[Hmis (entities' & Hdec & Hfirst)]]]%ParseMetadata_cases
    [_ [Hdirect'|(failed & entity & Hfail & Hentity & ->)]]%ParseEntitiesMetadata_cases.
  - exfalso. apply Hroot. by rewrite Hdirect, Hdirect'.
  - rewrite Hdirect in Hentity. injection Hentity as <-. cbn. left.
  - rewrite Hdec in Hdirect'. injection Hdirect' as ->.
    destruct Hfirst as (before & after & -> & _). apply elem_of_app. right. left.
  - by rewrite Hentity in Hmis.
Qed.

End ParserMore.

(** * Further properties of the fetcher *)
Section FetcherMore.
Context `{!url.Lib} `{!http.Lib}.

(** The result and the operations of a call that obtained a response. *)
Lemma fetchMetadata_response {R : Type}
    (ctx : http.Context_) (httpClient : http.Client) (metadataURL : url.URL)
    (f : list byte → result R) (req : http.Request) (resp : http.Response) :
  http.NewRequest "GET" (url.String_ metadataURL) = Ok req →
  http.Do httpClient (http.WithContext req ctx) = Ok resp →
  fetchMetadata ctx httpClient metadataURL f
  = if 400 <=? http.StatusCode resp then
      (Err (unexpected_status (http.StatusCode resp)), EvDo :: deferred_Close resp)
    else
      match http.Body_ReadAll resp with
      | (_, Some err) => (Err err, EvDo :: EvReadAll :: deferred_Close resp)
      | (data, None) => (f data, EvDo :: EvReadAll :: EvParse data :: deferred_Close resp)
      end.
Proof.
  intros Hreq Hdo. unfold fetchMetadata. rewrite Hreq, Hdo.
  destruct (400 <=? http.StatusCode resp); [done|].
  by destruct (http.Body_ReadAll resp) as [data [err|]].
Qed.

(** The operations of a call that obtained no response. *)
Lemma fetchMetadata_no_response {R : Type}
    (ctx : http.Context_) (httpClient : http.Client) (metadataURL : url.URL)
    (f : list byte → result R) :
  (¬ ∃ req resp, http.NewRequest "GET" (url.String_ metadataURL) = Ok req
                 ∧ http.Do httpClient (http.WithContext req ctx) = Ok resp) →
  ∃ err, (fetchMetadata ctx httpClient metadataURL f).1 = Err err
         ∧ ((fetchMetadata ctx httpClient metadataURL f).2 = []
            ∨ (fetchMetadata ctx httpClient metadataURL f).2 = [EvDo]).
Proof.
  intros Hnone. unfold fetchMetadata.
  destruct (http.NewRequest "GET" (url.String_ metadataURL)) as [req|err] eqn:Hreq.
  - destruct (http.Do httpClient (http.WithContext req ctx)) as [resp|err] eqn:Hdo.
    + exfalso. apply Hnone. by exists req, resp.
    + exists err. split; [done|]. by right.
  - exists err. split; [done|]. by left.
Qed.

Lemma deferred_Close_no_read (resp : http.Response) (ev : Event) :
  ev ∈ deferred_Close resp → ev = EvClose ∨ ∃ msg, ev = EvPrintf msg.
Proof.
  unfold deferred_Close. destruct (http.Body_Close resp) as [err|].
  - intros [->|[->|[]%elem_of_nil]%elem_of_cons]%elem_of_cons; eauto.
  - intros [->|[]%elem_of_nil]%elem_of_cons; eauto.
Qed.

Lemma deferred_Close_protocol (resp : http.Response) :
  ∃ msg, deferred_Close resp `sublist_of` [EvClose; EvPrintf msg].
Proof.
  unfold deferred_Close. destruct (http.Body_Close resp) as [err|].
  - eexists. reflexivity.
  - exists "". apply sublist_skip, sublist_nil_l.
Qed.

(** X5. fetchMetadata applies the parse function to [data] exactly when the
    request could be built, the client returned a response with a status
    code below 400, and reading its body gave [data] without error; the
    result of the call is then the result of the parse function on
    [data]. Under every other outcome (a request or transport error, a
    status of 400 or more, a read error) nothing is parsed. *)
Theorem fetchMetadata_parse_iff {R : Type}
    (ctx : http.Context_) (httpClient : http.Client) (metadataURL : url.URL)
    (f : list byte → result R) (data : list byte) :
  (EvParse data ∈ (fetchMetadata ctx httpClient metadataURL f).2
   ↔ ∃ req resp,
       http.NewRequest "GET" (url.String_ metadataURL) = Ok req
       ∧ http.Do httpClient (http.WithContext req ctx) = Ok resp
       ∧ http.StatusCode resp < 400
       ∧ http.Body_ReadAll resp = (data, None))
  ∧ (EvParse data ∈ (fetchMetadata ctx httpClient metadataURL f).2 →
     (fetchMetadata ctx httpClient metadataURL f).1 = f data).
Proof.
  assert (Hclose : ∀ resp, EvParse data ∉ deferred_Close resp).
  { intros resp [|[msg ?]]%deferred_Close_no_read; done. }
  assert (Hfwd : EvParse data ∈ (fetchMetadata ctx httpClient metadataURL f).2 →
    ∃ req resp,
       http.NewRequest "GET" (url.String_ metadataURL) = Ok req
       ∧ http.Do httpClient (http.WithContext req ctx) = Ok resp
       ∧ http.StatusCode resp < 400
       ∧ http.Body_ReadAll resp = (data, None)).
  { intros Hin.
    destruct (http.NewRequest "GET" (url.String_ metadataURL)) as [req|err] eqn:Hreq;
      [|by unfold fetchMetadata in Hin; rewrite Hreq in Hin; apply elem_of_nil in Hin].
    destruct (http.Do httpClient (http.WithContext req ctx)) as [resp|err] eqn:Hdo;
      [|unfold fetchMetadata in Hin; rewrite Hreq, Hdo in Hin;
        by apply list_elem_of_singleton in Hin].
    rewrite (fetchMetadata_response ctx httpClient metadataURL f req resp) in Hin by done.
    exists req, resp. split; [done|]. split; [done|].
    destruct (Z.leb_spec 400 (http.StatusCode resp)) as [Hcode|Hcode].
    - cbn [snd] in Hin. apply elem_of_cons in Hin as [|Hin]; [done|].
      by apply Hclose in Hin.
    - split; [done|].
      destruct (http.Body_ReadAll resp) as [body [err|]]; cbn [snd] in Hin;
        do 2 (apply elem_of_cons in Hin as [Hin|Hin]; [done|]).
      + by apply Hclose in Hin.
      + apply elem_of_cons in Hin as [Hin|Hin]; [by injection Hin as ->|].
        by apply Hclose in Hin. }
  split; [split; [done|]|].
  - intros (req & resp & Hreq & Hdo & Hcode & Hread).
    rewrite (fetchMetadata_response ctx httpClient metadataURL f req resp) by done.
    rewrite (proj2 (Z.leb_gt _ _) Hcode), Hread. cbn. do 2 right. left.
  - intros (req & resp & Hreq & Hdo & Hcode & Hread)%Hfwd.
    rewrite (fetchMetadata_response ctx httpClient metadataURL f req resp) by done.
    by rewrite (proj2 (Z.leb_gt _ _) Hcode), Hread.
Qed.

(** X6. Every call of fetchMetadata performs its operations in the order
    request, read, parse, close, log, each at most once, skipping those an
    error makes it leave out; and the response body is closed exactly when
    the client returned a response, whatever happens after that (status
    error, read error, parse failure or success). *)
Theorem fetchMetadata_protocol {R : Type}
    (ctx : http.Context_) (httpClient : http.Client) (metadataURL : url.URL)
    (f : list byte → result R) :
  (∃ data msg,
      (fetchMetadata ctx httpClient metadataURL f).2 `sublist_of` protocol data msg)
  ∧ (EvClose ∈ (fetchMetadata ctx httpClient metadataURL f).2
     ↔ ∃ req resp,
         http.NewRequest "GET" (url.String_ metadataURL) = Ok req
         ∧ http.Do httpClient (http.WithContext req ctx) = Ok resp).
Proof.
  destruct (http.NewRequest "GET" (url.String_ metadataURL)) as [req|err] eqn:Hreq.
  2: { unfold fetchMetadata. rewrite Hreq. cbn. split.
       - exists [], "". apply sublist_nil_l.
       - split; [by intros []%elem_of_nil|by intros (? & ? & ? & _)]. }
  destruct (http.Do httpClient (http.WithContext req ctx)) as [resp|err] eqn:Hdo.
  2: { unfold fetchMetadata. rewrite Hreq, Hdo. cbn. split.
       - exists [], "". apply sublist_skip, sublist_nil_l.
       - split; [by intros ?%list_elem_of_singleton|].
         intros (req' & resp' & [= <-] & Hdo'). by rewrite Hdo in Hdo'. }
  rewrite (fetchMetadata_response ctx httpClient metadataURL f req resp) by done.
  destruct (deferred_Close_protocol resp) as [msg Hmsg].
  assert (Hclose : EvClose ∈ deferred_Close resp) by (unfold deferred_Close; left).
  unfold protocol.
  destruct (400 <=? http.StatusCode resp); [|destruct (http.Body_ReadAll resp) as [data [err|]]];
    cbn [snd]; (split; [|split; [by exists req, resp|intros _; rewrite !elem_of_cons; tauto]]).
  - exists [], msg. by apply sublist_skip, sublist_cons, sublist_cons.
  - exists [], msg. by apply sublist_skip, sublist_skip, sublist_cons.
  - exists data, msg. by apply sublist_skip, sublist_skip, sublist_skip.
Qed.

(** X7. An error of closing the response body is logged and nothing more:
    the result of fetchMetadata is the one the call has when the close
    succeeds, and a message is logged exactly when the close fails; it
    holds the text of the close error. *)
Theorem fetchMetadata_close_error {R : Type}
    (ctx : http.Context_) (httpClient httpClient' : http.Client) (metadataURL : url.URL)
    (f : list byte → result R) (req : http.Request) (resp : http.Response) :
  http.NewRequest "GET" (url.String_ metadataURL) = Ok req →
  http.Do httpClient (http.WithContext req ctx) = Ok resp →
  http.Do httpClient' (http.WithContext req ctx) = Ok (close_succeeds resp) →
  (fetchMetadata ctx httpClient metadataURL f).1
  = (fetchMetadata ctx httpClient' metadataURL f).1
  ∧ ((∃ msg, EvPrintf msg ∈ (fetchMetadata ctx httpClient metadataURL f).2)
     ↔ http.Body_Close resp ≠ None)
  ∧ (∀ err, http.Body_Close resp = Some err →
       ∃ msg, last (fetchMetadata ctx httpClient metadataURL f).2 = Some (EvPrintf msg)
              ∧ contains msg err).
Proof.
  intros Hreq Hdo Hdo'.
  rewrite (fetchMetadata_response ctx httpClient metadataURL f req resp) by done.
  rewrite (fetchMetadata_response ctx httpClient' metadataURL f req (close_succeeds resp))
    by done.
  cbn [close_succeeds http.StatusCode http.Body_ReadAll].
  unfold deferred_Close. cbn [http.Body_Close].
  split_and!.
  - destruct (400 <=? http.StatusCode resp); [done|].
    by destruct (http.Body_ReadAll resp) as [data [err|]].
  - destruct (http.Body_Close resp) as [cerr|];
      (destruct (400 <=? http.StatusCode resp);
       [|destruct (http.Body_ReadAll resp) as [data [err|]]]); cbn [snd].
    1-3: split; [done|intros _];
         exists ("Error while closing response body during fetch metadata: " ++ cerr);
         repeat (apply elem_of_cons; first [left; reflexivity|right]).
    all: split; [intros [msg Hin]; exfalso|done];
         repeat (apply elem_of_cons in Hin as [Hin|Hin]; [discriminate|]);
         by apply elem_of_nil in Hin.
  - intros cerr ->. eexists. split.
    + destruct (400 <=? http.StatusCode resp);
        [|destruct (http.Body_ReadAll resp) as [data [err|]]]; reflexivity.
    + exists "Error while closing response body during fetch metadata: ", "".
      by rewrite append_nil_r.
Qed.

End FetcherMore.

(** * Further properties of the registry *)
Section RegistryMore.
Context `{SamlDecls} `{!url.Lib} `{!slice.Runtime}.

(** X8. The logout endpoints of the metadata follow the configured logout
    bindings position by position: the endpoint at an index has the binding
    at that index, repeated bindings included, and every endpoint has the
    single-logout URL both as its location and as its response location. *)
Theorem Metadata_logout_endpoints (now : Time) (smp : ServiceMultipleProvider)
    (mem : slice.Memory) :
  ∃ sp,
    SPSSODescriptors (Metadata now smp mem).1 = [sp]
    ∧ (∀ i, SingleLogoutServices (SPSSODescriptor_SSODescriptor sp) !! i
            = logout_endpoint smp <$> LogoutBindings smp !! i)
    ∧ Forall (λ ep, Endpoint_Location ep = url.String_ (SloURL smp)
                    ∧ Endpoint_ResponseLocation ep = Endpoint_Location ep)
             (SingleLogoutServices (SPSSODescriptor_SSODescriptor sp)).
Proof.
  eexists. split; [reflexivity|]. cbn. rewrite sloEndpoints_of_map. split.
  - intros i. fold (logout_endpoint smp). apply list_lookup_fmap.
  - induction (LogoutBindings smp) as [|b bs IH]; by constructor.
Qed.

(** X9. A signing key descriptor is published exactly when both a
    certificate and a signature method are configured. With a signature
    method and no certificate the metadata declares AuthnRequestsSigned
    true and publishes no key at all. There are never more than two key
    descriptors, and they all carry the same key info. *)
Theorem Metadata_signing_key (now : Time) (smp : ServiceMultipleProvider) (mem : slice.Memory) :
  ∃ sp,
    SPSSODescriptors (Metadata now smp mem).1 = [sp]
    ∧ ((∃ kd, kd ∈ KeyDescriptors (role_of sp) ∧ Use kd = "signing")
       ↔ Certificate smp ≠ None ∧ SignatureMethod smp ≠ "")
    ∧ (Certificate smp = None → SignatureMethod smp ≠ "" →
       AuthnRequestsSigned sp = Some true ∧ KeyDescriptors (role_of sp) = [])
    ∧ (length (KeyDescriptors (role_of sp)) ≤ 2)%nat
    ∧ (∀ kd1 kd2, kd1 ∈ KeyDescriptors (role_of sp) → kd2 ∈ KeyDescriptors (role_of sp) →
                  KeyDescriptor_KeyInfo kd1 = KeyDescriptor_KeyInfo kd2).
Proof.
  eexists. split; [reflexivity|]. cbn. rewrite keyDescriptors_of_spec.
  destruct (Certificate smp) as [leaf|];
    destruct (String.eqb_spec (SignatureMethod smp) "") as [Hsig|Hsig]; cbn.
  - split_and!; [|done|lia|].
    + split; [|by intros [_ ?]].
      intros (kd & ->%list_elem_of_singleton & Huse). discriminate Huse.
    + by intros kd1 kd2 ->%list_elem_of_singleton ->%list_elem_of_singleton.
  - split_and!; [|done|lia|].
    + split; [done|intros _]. eexists. split; [right; left|done].
    + intros kd1 kd2 Hkd1 Hkd2.
      apply elem_of_cons in Hkd1 as [->| ->%list_elem_of_singleton];
        apply elem_of_cons in Hkd2 as [->| ->%list_elem_of_singleton]; done.
  - split_and!; [|done|lia|by intros kd1 kd2 []%elem_of_nil].
    split; [by intros (kd & []%elem_of_nil & _)|by intros [? _]].
  - split_and!; [| |lia|by intros kd1 kd2 []%elem_of_nil].
    + split; [by intros (kd & []%elem_of_nil & _)|by intros [? _]].
    + intros _ _. split; [|done]. f_equal. by apply len_pos_true.
Qed.

(** X10. The key descriptors depend on the certificates only through the
    concatenation of their raw bytes: two registries whose chains have the
    same bytes, however they are divided between the leaf and the
    intermediates, and the same signature method publish the same key
    descriptors, when in neither of them an intermediate's raw bytes lie
    in the spare capacity of the leaf's raw slice. The blob does not tell
    where one certificate ends. *)
Theorem Metadata_blob_concatenation
    (now1 now2 : Time) (smp1 smp2 : ServiceMultipleProvider) (leaf1 leaf2 : x509.Certificate)
    (mem1 mem2 : slice.Memory) :
  Certificate smp1 = Some leaf1 →
  Certificate smp2 = Some leaf2 →
  chain_unaliased mem1 leaf1 (Intermediates smp1) →
  chain_unaliased mem2 leaf2 (Intermediates smp2) →
  chain_bytes mem1 leaf1 (Intermediates smp1) = chain_bytes mem2 leaf2 (Intermediates smp2) →
  SignatureMethod smp1 = SignatureMethod smp2 →
  ∃ sp1 sp2,
    SPSSODescriptors (Metadata now1 smp1 mem1).1 = [sp1]
    ∧ SPSSODescriptors (Metadata now2 smp2 mem2).1 = [sp2]
    ∧ KeyDescriptors (role_of sp1) = KeyDescriptors (role_of sp2).
Proof.
  intros Hleaf1 Hleaf2 Hchain1 Hchain2 Hbytes Hsig. eexists _, _.
  split; [reflexivity|]. split; [reflexivity|]. cbn.
  rewrite !keyDescriptors_of_spec, Hleaf1, Hleaf2, Hsig. cbn.
  rewrite (certBytes_loop_concat mem1 leaf1 _ Hchain1).
  rewrite (certBytes_loop_concat mem2 leaf2 _ Hchain2).
  unfold certificate_blob. unfold chain_bytes in Hbytes. by rewrite Hbytes.
Qed.

End RegistryMore.

(** * The registry's metadata and the parser *)
Section Published.
Context `{XmlLib} `{!url.Lib} `{!slice.Runtime}.

(** The metadata of a tenant never has an IDP role descriptor. *)
Lemma Metadata_no_IDPSSO (now : Time) (smp : ServiceMultipleProvider) (mem : slice.Memory) :
  ¬ has_IDPSSO (Metadata now smp mem).1.
Proof. intros Hno. by apply Hno. Qed.

(** X11. What the registry publishes is never taken for identity-provider
    metadata: when ParseMetadata falls back to an EntitiesDescriptor all of
    whose entities are documents produced by Metadata, it fails with the
    NotFound error. *)
Theorem ParseMetadata_published
    (data : list byte) (entities : EntitiesDescriptor)
    (tenants : list (Time * ServiceMultipleProvider * slice.Memory)) :
  xrv_Validate data = None →
  (xml_Unmarshal_EntityDescriptor data EntityDescriptor_zero).2
    = Some expected_EntityDescriptor →
  xml_Unmarshal_EntitiesDescriptor data EntitiesDescriptor_zero = (entities, None) →
  EntityDescriptors entities = map (λ t, (Metadata t.1.1 t.1.2 t.2).1) tenants →
  ParseMetadata data = Err no_entity_found.
Proof.
  intros Hvalid Hroot Hdec Hes. unfold ParseMetadata. rewrite Hvalid.
  destruct (xml_Unmarshal_EntityDescriptor data EntityDescriptor_zero) as [x err].
  cbn in Hroot. subst err. unfold error_is. rewrite String.eqb_refl, Hdec, Hes.
  apply range_IDPSSO_none. clear Hes.
  induction tenants as [|t ts IH]; cbn [map]; constructor;
    [apply Metadata_no_IDPSSO|done].
Qed.

End Published.

(** * Further properties of the discovery redirector *)
Section RedirectorMore.
Context `{XmlLib} `{!url.Lib}.

(** X12. MakeWayfRedirectionRequest panics exactly when the return URL
    parses and IDPMetadata is nil. A return URL that does not parse makes it
    return the parse error before IDPMetadata is read, so that a registry
    without identity-provider metadata does not panic on it. *)
Theorem MakeWayfRedirectionRequest_panics_iff
    (smp : ServiceMultipleProvider) (relayState returnUrl msg : string) :
  (MakeWayfRedirectionRequest smp relayState returnUrl = Panics msg
   ↔ (∃ u, url.Parse returnUrl = Ok u) ∧ IDPMetadata smp = None ∧ msg = nil_dereference)
  ∧ (∀ err, url.Parse returnUrl = Err err →
            MakeWayfRedirectionRequest smp relayState returnUrl = Returns (Err err)).
Proof.
  unfold MakeWayfRedirectionRequest. split.
  - destruct (url.Parse returnUrl) as [u|err].
    + destruct (IDPMetadata smp) as [idp|].
      * split; [|by intros (_ & ? & _)].
        destruct (Name idp) as [wayfUrl|]; [|done]. by destruct (url.Parse wayfUrl).
      * split; [intros [= <-]; eauto|by intros (_ & _ & ->)].
    + split; [done|by intros ([u ?] & _)].
  - by intros err ->.
Qed.

(** X13. MakeWayfRedirectionRequest returns a URL exactly when the return
    URL parses, the identity-provider metadata is present, has a name, and
    the name parses. An error it returns is the parse error of the return
    URL, the parse error of the name, or the ConfigError of an absent
    name. *)
Theorem MakeWayfRedirectionRequest_returns
    (smp : ServiceMultipleProvider) (relayState returnUrl : string) :
  ((∃ redirect, MakeWayfRedirectionRequest smp relayState returnUrl = Returns (Ok redirect))
   ↔ ∃ u idp wayfUrl wu,
       url.Parse returnUrl = Ok u ∧ IDPMetadata smp = Some idp
       ∧ Name idp = Some wayfUrl ∧ url.Parse wayfUrl = Ok wu)
  ∧ (∀ err, MakeWayfRedirectionRequest smp relayState returnUrl = Returns (Err err) →
       url.Parse returnUrl = Err err
       ∨ ∃ idp, IDPMetadata smp = Some idp
                ∧ ((Name idp = None ∧ err = identity_name_not_set)
                   ∨ ∃ wayfUrl, Name idp = Some wayfUrl ∧ url.Parse wayfUrl = Err err)).
Proof.
  unfold MakeWayfRedirectionRequest.
  destruct (url.Parse returnUrl) as [u|err0].
  2: { split; [split; [by intros [? ?]|by intros (? & ? & ? & ? & ? & _)]|].
       intros err [= <-]. by left. }
  destruct (IDPMetadata smp) as [idp|].
  2: { split; [split; [by intros [? ?]|by intros (? & ? & ? & ? & _ & ? & _)]|done]. }
  destruct (Name idp) as [wayfUrl|] eqn:Hname.
  2: { split; [split; [by intros [? ?]|]|].
       - intros (? & idp' & ? & ? & _ & [= <-] & Hname' & _). by rewrite Hname in Hname'.
       - intros err [= <-]. right. exists idp. split; [done|]. by left. }
  destruct (url.Parse wayfUrl) as [wu|err0] eqn:Hwu.
  - split; [split; [intros _; by exists u, idp, wayfUrl, wu|by eexists]|done].
  - split; [split; [by intros [? ?]|]|].
    + intros (? & idp' & w & ? & _ & [= <-] & Hname' & Hwu').
      rewrite Hname in Hname'. injection Hname' as <-. by rewrite Hwu in Hwu'.
    + intros err [= <-]. right. exists idp. split; [done|]. right. by exists wayfUrl.
Qed.

Lemma last_value_Add (v : url.Values) (key value : string) :
  last_value (url.Values_Add v key value) key = Some value.
Proof.
  unfold last_value. rewrite Values_Add_lookup, decide_True by done. apply last_snoc.
Qed.

Lemma last_value_Add_ne (v : url.Values) (key value k : string) :
  key ≠ k → last_value (url.Values_Add v key value) k = last_value v k.
Proof.
  intros Hne. unfold last_value. by rewrite Values_Add_lookup, decide_False.
Qed.

(** X14. The relay state survives the two levels of encoding. When the
    library parses the augmented return URL back from its string (the
    round trip of Parse and String on that URL), then in every redirect
    MakeWayfRedirectionRequest returns, the last [return] parameter is a
    string that parses to a URL whose last [rs] parameter is the relay
    state, byte for byte and whatever bytes it holds; and the last
    [entityID] parameter is the tenant's entity identifier. *)
Theorem MakeWayfRedirectionRequest_relay_state
    (smp : ServiceMultipleProvider) (relayState returnUrl : string)
    (u redirect : url.URL) :
  url.Parse returnUrl = Ok u →
  url.Parse (url.String_ (return_with_rs u relayState)) = Ok (return_with_rs u relayState) →
  MakeWayfRedirectionRequest smp relayState returnUrl = Returns (Ok redirect) →
  ∃ ret back,
    last_value (url.Query redirect) "return" = Some ret
    ∧ url.Parse ret = Ok back
    ∧ last_value (url.Query back) "rs" = Some relayState
    ∧ last_value (url.Query redirect) "entityID" = Some (SMP_EntityID smp).
Proof.
  intros Hu Hround. unfold MakeWayfRedirectionRequest. rewrite Hu.
  fold (return_with_rs u relayState).
  destruct (IDPMetadata smp) as [idp|]; [|done].
  destruct (Name idp) as [wayfUrl|]; [|done].
  destruct (url.Parse wayfUrl) as [wu|err]; [|done].
  intros [= <-].
  rewrite Query_set_Encode
    by (do 2 apply Values_Add_nonempty; apply Query_nonempty).
  exists (url.String_ (return_with_rs u relayState)), (return_with_rs u relayState).
  split_and!.
  - rewrite last_value_Add_ne by done. apply last_value_Add.
  - done.
  - unfold return_with_rs.
    rewrite Query_set_Encode by apply Values_Add_nonempty, Query_nonempty.
    apply last_value_Add.
  - apply last_value_Add.
Qed.

(** X15. Identity-provider metadata that was published as a single
    EntityDescriptor cannot configure discovery. When ParseEntitiesMetadata
    wraps such a document and the failed first decoding left the name of
    its target unset, the EntitiesDescriptor it returns has no name, and
    MakeWayfRedirectionRequest on a registry that holds it fails with the
    ConfigError for every relay state and every return URL that parses. *)
Theorem single_entity_metadata_no_discovery
    (data : list byte) (entities : EntitiesDescriptor)
    (smp : ServiceMultipleProvider) (relayState returnUrl : string) (u : url.URL) :
  Name (xml_Unmarshal_EntitiesDescriptor data EntitiesDescriptor_zero).1 = None →
  (xml_Unmarshal_EntitiesDescriptor data EntitiesDescriptor_zero).2
    = Some expected_EntitiesDescriptor →
  ParseEntitiesMetadata data = Ok entities →
  IDPMetadata smp = Some entities →
  url.Parse returnUrl = Ok u →
  Name entities = None
  ∧ MakeWayfRedirectionRequest smp relayState returnUrl
    = Returns (Err identity_name_not_set).
Proof.
  intros Hname Hroot Hparse Hidp Hu.
  assert (Hnone : Name entities = None).
  { apply ParseEntitiesMetadata_cases in Hparse
      as [_ [Hdirect|(failed & entity & Hfail & _ & ->)]].
    - by rewrite Hdirect in Hroot.
    - rewrite Hfail in Hname. exact Hname. }
  split; [done|].
  unfold MakeWayfRedirectionRequest. by rewrite Hu, Hidp, Hnone.
Qed.

End RedirectorMore.

(** * The further properties on the concrete environment *)
Section SamplesMore.
#[local] Existing Instance Sample.decls.
#[local] Existing Instance Sample.urls.
#[local] Existing Instance Sample.xml.
#[local] Existing Instance Sample.https.
#[local] Existing Instance Sample.runtime.

(** The document A, B, C: B was returned, so the document was valid. *)
Lemma ParseMetadata_Ok_inv_witness :
  ParseMetadata Sample.doc_entities = Ok (Sample.idp_entity "B")
  ∧ xrv_Validate Sample.doc_entities = None.
Proof.
  assert (Hparse : ParseMetadata Sample.doc_entities = Ok (Sample.idp_entity "B"))
    by (vm_compute; reflexivity).
  split; [exact Hparse|].
  exact (proj1 (ParseMetadata_Ok_inv Sample.doc_entities (Sample.idp_entity "B") Hparse)).
Defined.

Lemma ParseEntitiesMetadata_Ok_inv_witness :
  ParseEntitiesMetadata Sample.doc_entity
  = Ok (set_EntityDescriptors [Sample.idp_entity "B"] EntitiesDescriptor_zero)
  ∧ xrv_Validate Sample.doc_entity = None.
Proof.
  assert (Hparse : ParseEntitiesMetadata Sample.doc_entity
                   = Ok (set_EntityDescriptors [Sample.idp_entity "B"] EntitiesDescriptor_zero))
    by (vm_compute; reflexivity).
  split; [exact Hparse|].
  exact (proj1 (ParseEntitiesMetadata_Ok_inv Sample.doc_entity _ Hparse)).
Defined.

(** B is among A, B and C. *)
Lemma parsers_agree_witness :
  Sample.idp_entity "B" ∈ EntityDescriptors Sample.entities_ABC.
Proof.
  apply (parsers_agree Sample.doc_entities).
  - intros [Hentity _]. vm_compute in Hentity. discriminate Hentity.
  - vm_compute. reflexivity.
  - vm_compute. reflexivity.
Defined.

(** A response with status 200: the body is parsed and the result is the
    parser's. *)
Lemma fetchMetadata_parse_iff_witness :
  (FetchEntityMetatada Shapes.background Shapes.ok_client Sample.metadata_endpoint).1
  = ParseMetadata Sample.doc_entity.
Proof.
  destruct (fetchMetadata_parse_iff Shapes.background Shapes.ok_client Sample.metadata_endpoint
              ParseMetadata Sample.doc_entity) as [Hiff Hresult].
  apply Hresult, Hiff.
  exists "https://idp.example/metadata", Shapes.ok_page.
  split; [vm_compute; reflexivity|]. split; [reflexivity|].
  split; [vm_compute; reflexivity|reflexivity].
Defined.

(** The response is closed, although its close fails. *)
Lemma fetchMetadata_protocol_witness :
  EvClose ∈ (FetchEntityMetatada Shapes.background Shapes.ok_client Sample.metadata_endpoint).2.
Proof.
  apply (proj2 (fetchMetadata_protocol Shapes.background Shapes.ok_client Sample.metadata_endpoint
                  ParseMetadata)).
  exists "https://idp.example/metadata", Shapes.ok_page.
  split; [vm_compute; reflexivity|reflexivity].
Defined.

(** The failed close is logged and the entity B is returned all the same. *)
Lemma fetchMetadata_close_error_witness :
  (FetchEntityMetatada Shapes.background Shapes.ok_client Sample.metadata_endpoint).1
  = (FetchEntityMetatada Shapes.background Shapes.closing_client
       Sample.metadata_endpoint).1
  ∧ ∃ msg,
      last (FetchEntityMetatada Shapes.background Shapes.ok_client Sample.metadata_endpoint).2
      = Some (EvPrintf msg)
      ∧ contains msg "close tcp: use of closed network connection".
Proof.
  destruct (fetchMetadata_close_error Shapes.background
              Shapes.ok_client Shapes.closing_client
              Sample.metadata_endpoint ParseMetadata
              "https://idp.example/metadata" Shapes.ok_page)
    as (Hsame & _ & Hlog).
  - vm_compute. reflexivity.
  - reflexivity.
  - reflexivity.
  - split; [exact Hsame|]. apply Hlog. reflexivity.
Defined.

(** The second logout endpoint of the signing tenant has its second
    binding. *)
Lemma Metadata_logout_endpoints_witness :
  ∃ sp,
    SPSSODescriptors (Metadata Sample.noon Sample.signing_tenant Sample.memory).1 = [sp]
    ∧ SingleLogoutServices (SPSSODescriptor_SSODescriptor sp) !! 1%nat
      = Some {| Endpoint_Binding := "urn:oasis:names:tc:SAML:2.0:bindings:HTTP-Redirect";
                Endpoint_Location := "https://sp.example/saml/slo";
                Endpoint_ResponseLocation := "https://sp.example/saml/slo" |}.
Proof.
  destruct (Metadata_logout_endpoints Sample.noon Sample.signing_tenant Sample.memory)
    as (sp & Hsp & Hat & _).
  exists sp. split; [exact Hsp|]. rewrite Hat. vm_compute. reflexivity.
Defined.

(** A signature method without certificate: signed requests, no key. *)
Lemma Metadata_signing_key_witness :
  ∃ sp,
    SPSSODescriptors
      (Metadata Sample.noon (Sample.registry None Sample.rsa_sha256 [] 0 None)
                Sample.memory).1 = [sp]
    ∧ AuthnRequestsSigned sp = Some true
    ∧ KeyDescriptors (role_of sp) = [].
Proof.
  destruct (Metadata_signing_key Sample.noon
              (Sample.registry None Sample.rsa_sha256 [] 0 None) Sample.memory)
    as (sp & Hsp & _ & Hnokey & _).
  exists sp. split; [exact Hsp|]. apply Hnokey; [reflexivity|discriminate].
Defined.

(** Three bytes as a leaf of two and an intermediate of one, or as a leaf
    of one and an intermediate of two, each certificate in an array of
    its own. *)
Lemma Metadata_blob_concatenation_witness :
  ∃ sp1 sp2,
    SPSSODescriptors
      (Metadata Sample.noon (Shapes.chain [x30; x82] [[x01]])
                (Shapes.chain_memory [x30; x82] [[x01]])).1 = [sp1]
    ∧ SPSSODescriptors
        (Metadata Sample.noon (Shapes.chain [x30] [[x82; x01]])
                  (Shapes.chain_memory [x30] [[x82; x01]])).1 = [sp2]
    ∧ KeyDescriptors (role_of sp1) = KeyDescriptors (role_of sp2).
Proof.
  apply (Metadata_blob_concatenation Sample.noon Sample.noon
           (Shapes.chain [x30; x82] [[x01]]) (Shapes.chain [x30] [[x82; x01]])
           (Shapes.chain_leaf [x30; x82]) (Shapes.chain_leaf [x30])
           (Shapes.chain_memory [x30; x82] [[x01]]) (Shapes.chain_memory [x30] [[x82; x01]]));
    try reflexivity; vm_compute; repeat constructor; discriminate.
Defined.

(** An unparseable return URL on a registry without identity-provider
    metadata: the parse error, no panic. *)
Lemma MakeWayfRedirectionRequest_panics_iff_witness :
  MakeWayfRedirectionRequest (Sample.tenant None) "abc" "sp.example/cb"
  = Returns (Err Sample.not_plain).
Proof.
  apply (proj2 (MakeWayfRedirectionRequest_panics_iff
                  (Sample.tenant None) "abc" "sp.example/cb" "")).
  vm_compute. reflexivity.
Defined.

Lemma MakeWayfRedirectionRequest_returns_witness :
  ∃ redirect,
    MakeWayfRedirectionRequest (Sample.tenant (Some Sample.entities_ABC))
      "abc" "https://sp.example/cb" = Returns (Ok redirect).
Proof.
  apply (proj1 (MakeWayfRedirectionRequest_returns
                  (Sample.tenant (Some Sample.entities_ABC)) "abc" "https://sp.example/cb")).
  exists (Sample.sp_endpoint "/cb"), Sample.entities_ABC, "https://idp.example/wayf",
         (Sample.idp_endpoint "/wayf").
  split; [vm_compute; reflexivity|]. split; [reflexivity|]. split; [reflexivity|].
  vm_compute. reflexivity.
Defined.

(** A relay state full of separators comes back unchanged. *)
Lemma MakeWayfRedirectionRequest_relay_state_witness :
  ∃ redirect ret back,
    MakeWayfRedirectionRequest (Sample.tenant (Some Sample.entities_ABC))
      "a&b=c d;e%" "https://sp.example/cb" = Returns (Ok redirect)
    ∧ last_value (url.Query redirect) "return" = Some ret
    ∧ url.Parse ret = Ok back
    ∧ last_value (url.Query back) "rs" = Some "a&b=c d;e%".
Proof.
  assert (Hresult : ∃ redirect,
             MakeWayfRedirectionRequest (Sample.tenant (Some Sample.entities_ABC))
               "a&b=c d;e%" "https://sp.example/cb" = Returns (Ok redirect))
    by (eexists; vm_compute; reflexivity).
  destruct Hresult as [redirect Hredirect].
  destruct (MakeWayfRedirectionRequest_relay_state
              (Sample.tenant (Some Sample.entities_ABC)) "a&b=c d;e%" "https://sp.example/cb"
              (Sample.sp_endpoint "/cb") redirect)
    as (ret & back & Hret & Hback & Hrs & _).
  - vm_compute. reflexivity.
  - vm_compute. reflexivity.
  - exact Hredirect.
  - by exists redirect, ret, back.
Defined.

(** The standalone document B as identity-provider metadata. *)
Lemma single_entity_metadata_no_discovery_witness :
  MakeWayfRedirectionRequest
    (Sample.tenant (Some (set_EntityDescriptors [Sample.idp_entity "B"] EntitiesDescriptor_zero)))
    "abc" "https://sp.example/cb"
  = Returns (Err identity_name_not_set).
Proof.
  apply (single_entity_metadata_no_discovery Sample.doc_entity
           (set_EntityDescriptors [Sample.idp_entity "B"] EntitiesDescriptor_zero)
           _ "abc" "https://sp.example/cb" (Sample.sp_endpoint "/cb"));
    vm_compute; reflexivity.
Defined.

End SamplesMore.

Section ShapesSamples.
#[local] Existing Instance Sample.decls.
#[local] Existing Instance Sample.urls.
#[local] Existing Instance Shapes.xml.
#[local] Existing Instance Sample.runtime.

(** The entity A has no IDP role descriptor: alone it is returned, wrapped
    it is refused. *)
Lemma ParseMetadata_shapes_witness :
  ParseMetadata Shapes.doc_single = Ok (Sample.plain_entity "A")
  ∧ ParseMetadata Shapes.doc_wrapped = Err no_entity_found.
Proof.
  destruct (ParseMetadata_shapes Shapes.doc_single Shapes.doc_wrapped
              (Sample.plain_entity "A") (Shapes.entities_of [Sample.plain_entity "A"]))
    as (Hsingle & _ & Hwrapped); try (vm_compute; reflexivity).
  split; [exact Hsingle|]. apply Hwrapped. intros Hidp. apply Hidp. reflexivity.
Defined.

(** The metadata of the sample tenant, wrapped, is not accepted. *)
Lemma ParseMetadata_published_witness :
  ParseMetadata Shapes.doc_published = Err no_entity_found.
Proof.
  apply (ParseMetadata_published Shapes.doc_published
           (Shapes.entities_of [Shapes.published])
           [(Sample.noon, Sample.tenant None, Sample.memory)]);
    vm_compute; reflexivity.
Defined.

End ShapesSamples.
